(** * EmbeddingService.create_embedding

    A shallow embedding of [app/service/embedding/embedding_service.py]:
    the call to the embedding provider wrapped in [try] / [except] /
    [finally], the preview of the input kept for the error log, the status
    code recovered from the text of a generic exception, the latency in
    milliseconds, and the two writes to the database log tables. *)

From Stdlib Require Import ZArith NArith List String Ascii Bool Lia.
From Stdlib Require Import SpecFloat DecimalString.
Import ListNotations.

Local Open Scope Z_scope.

(** ** Python strings *)

Module PyStr.

(** A Python [str] is a sequence of Unicode code points; [len] counts
    code points and slicing cuts between them. *)
Definition str := list N.

(** The [str] written by an ASCII literal of the source. *)
Definition py (s : string) : str := map N_of_ascii (list_ascii_of_string s).

(** First code point of each block of ten decimal digits (general category
    Nd) of the Unicode database, version 14.0.0; the digit of value [i] of a
    block is the [i]-th code point after its first. *)
Definition decimal_zeros : list N :=
  [ 0x30; 0x660; 0x6f0; 0x7c0; 0x966; 0x9e6; 0xa66; 0xae6; 0xb66; 0xbe6;
    0xc66; 0xce6; 0xd66; 0xde6; 0xe50; 0xed0; 0xf20; 0x1040; 0x1090;
    0x17e0; 0x1810; 0x1946; 0x19d0; 0x1a80; 0x1a90; 0x1b50; 0x1bb0;
    0x1c40; 0x1c50; 0xa620; 0xa8d0; 0xa900; 0xa9d0; 0xa9f0; 0xaa50;
    0xabf0; 0xff10; 0x104a0; 0x10d30; 0x11066; 0x110f0; 0x11136; 0x111d0;
    0x112f0; 0x11450; 0x114d0; 0x11650; 0x116c0; 0x11730; 0x118e0;
    0x11950; 0x11c50; 0x11d50; 0x11da0; 0x16a60; 0x16ac0; 0x16b50;
    0x1d7ce; 0x1d7d8; 0x1d7e2; 0x1d7ec; 0x1d7f6; 0x1e140; 0x1e2f0;
    0x1e950; 0x1fbf0 ]%N.

(** The value of a decimal digit, [None] for any other code point. *)
Definition decimal (c : N) : option Z :=
  match find (fun z => (z <=? c)%N && (c <? z + 10)%N) decimal_zeros with
  | Some z => Some (Z.of_N (c - z))
  | None => None
  end.

(** What [\d] matches in a [str] pattern. *)
Definition is_digit (c : N) : bool :=
  match decimal c with Some _ => true | None => false end.

(** [s[:n] + "..." if len(s) > n else s] *)
Definition truncate (n : nat) (s : str) : str :=
  if (n <? List.length s)%nat then firstn n s ++ py "..." else s.

(** The number a run [g] of decimal digits writes: most significant digit
    first, base ten, on the unbounded integers. It is the value of [int(g)]
    when [int] returns, see [int_of_digit_run] below. *)
Definition int_of_digits (g : str) : Z :=
  fold_left (fun acc c => 10 * acc + match decimal c with Some v => v | None => 0 end) g 0.

(** [sys.get_int_max_str_digits()]: the longest digit string [int] converts.
    The source leaves the interpreter's default, 4300, in place. *)
Definition int_max_str_digits : nat := 4300.

(** [str(n)] for a count [n]. *)
Definition str_of_nat (n : nat) : str := py (NilEmpty.string_of_uint (Nat.to_uint n)).

End PyStr.
Import PyStr.

(** ** The regular expression ["status code (\d+)"] *)

Module Re.

Definition keyword : str := py "status code ".

(** [s] without the literal [p] at its front, when it starts with [p]. *)
Fixpoint strip_prefix (p s : str) : option str :=
  match p, s with
  | [], _ => Some s
  | _ :: _, [] => None
  | a :: p', b :: s' => if (a =? b)%N then strip_prefix p' s' else None
  end.

(** The longest run of digits at the front of [s]: what a greedy [\d*]
    consumes. *)
Fixpoint digit_run (s : str) : str :=
  match s with
  | c :: s' => if is_digit c then c :: digit_run s' else []
  | [] => []
  end.

(** The pattern anchored at the front of [s]; the result is group 1. *)
Definition match_here (s : str) : option str :=
  match strip_prefix keyword s with
  | Some r => match digit_run r with
              | [] => None
              | g => Some g
              end
  | None => None
  end.

(** [re.search(r"status code (\d+)", s)]: the match at the leftmost
    position where the pattern matches; the result is [match.group(1)]. *)
Fixpoint search (s : str) : option str :=
  match match_here s with
  | Some g => Some g
  | None => match s with
            | [] => None
            | _ :: s' => search s'
            end
  end.

End Re.

(** ** Exceptions and completions *)

(** The exceptions the call can meet, by the class the [except] clauses test.
    Each carries its [str()]. *)
Inductive PyExn : Type :=
| APIStatusError (status_code : Z) (message : str)
    (** [openai.APIStatusError] and its subclasses: [e.status_code], and the
        message, which is [str(e)] *)
| OtherException (text : str)
    (** any other instance of [Exception] *)
| NonException (text : str).
    (** a [BaseException] that is not an [Exception]: [KeyboardInterrupt],
        [SystemExit], [GeneratorExit], [asyncio.CancelledError] *)

(** [str(e)] *)
Definition exn_str (e : PyExn) : str :=
  match e with
  | APIStatusError _ message => message
  | OtherException text => text
  | NonException text => text
  end.

(** How a statement or a call ends: with a value, or by raising. *)
Inductive Completion (A : Type) : Type :=
| Normal (a : A)
| Raised (e : PyExn).
Arguments Normal {A} a.
Arguments Raised {A} e.

(** ** Python floats *)

Module PyFloat.

(** A Python [float] is an IEEE 754 binary64 number. *)
Definition float := spec_float.
Definition prec : Z := 53.
Definition emax : Z := 1024.

(** [x - y] and [x * y], rounded to nearest, ties to even. *)
Definition sub (x y : float) : float := SFsub prec emax x y.
Definition mul (x y : float) : float := SFmul prec emax x y.

(** The float an [int] operand of a mixed operation is converted to. *)
Definition of_int (z : Z) : float := binary_normalize prec emax z 0 false.

(** [int(x)]: truncation toward zero; infinities and NaN raise. *)
Definition to_int (x : float) : Completion Z :=
  match x with
  | S754_zero _ => Normal 0
  | S754_finite s m e => Normal (cond_Zopp s (Z.shiftl (Zpos m) e))
  | S754_infinity _ =>
      Raised (OtherException (py "cannot convert float infinity to integer"))
  | S754_nan =>
      Raised (OtherException (py "cannot convert float NaN to integer"))
  end.

(** [x <= y] *)
Definition leb (x y : float) : bool := SFleb x y.

(** A finite number of the format. *)
Definition is_finite (x : float) : bool :=
  valid_binary prec emax x &&
  match x with
  | S754_zero _ | S754_finite _ _ _ => true
  | _ => false
  end.

(** [|x| < 2 ^ k] for a finite [x]. *)
Definition below_pow2 (k : Z) (x : float) : bool :=
  match x with
  | S754_zero _ => true
  | S754_finite _ m e => Zpos (digits2_pos m) + e <=? k
  | _ => false
  end.

End PyFloat.

(** ** The request and the log entries *)

(** [input_text : Union[str, List[str]]] *)
Inductive Input : Type :=
| InputStr (s : str)
| InputList (l : list str).

(** The value under the key ["input_truncated"] of [request_msg_log]. *)
Inductive InputTruncated : Type :=
| TruncatedStr (s : str)
| TruncatedList (l : list str).

(** The dict [request_msg_log]; it has the one key. *)
Record RequestMsgLog : Type := { input_truncated : InputTruncated }.

(** Lines 30-35: the preview of the input kept for the error log. The items
    of a [List[str]] are [str], on which [str(item)] is [item]. *)
Definition build_request_msg_log (input_text : Input) : RequestMsgLog :=
  match input_text with
  | InputList l =>
      let items := map (truncate 100) (firstn 5 l) in
      {| input_truncated :=
           TruncatedList (if (5 <? List.length l)%nat
                          then items ++ [py "..."] else items) |}
  | InputStr s =>
      {| input_truncated := TruncatedStr (truncate 1000 s) |}
  end.

(** A naive [datetime.datetime]. *)
Record datetime : Type :=
  { year : Z; month : Z; day : Z; hour : Z; minute : Z; second : Z;
    microsecond : Z }.

(** The keyword arguments of [add_error_log]. *)
Module ErrorLog.
Record entry : Type :=
  { gemini_key : str;
    model_name : str;
    error_type : str;
    error_log : str;
    error_code : option Z;
    request_msg : RequestMsgLog }.
End ErrorLog.

(** The keyword arguments of [add_request_log]. *)
Module RequestLog.
Record entry : Type :=
  { model_name : str;
    api_key : str;
    is_success : bool;
    status_code : option Z;
    latency_ms : Z;
    request_time : datetime }.
End RequestLog.

(** What the database layer was asked to write, oldest first. *)
Inductive DbWrite : Type :=
| ErrorLogWrite (e : ErrorLog.entry)
| RequestLogWrite (r : RequestLog.entry).

(** The part of the world the call changes. *)
Record World : Type :=
  { clock_calls : nat;        (** calls of [time.perf_counter] so far *)
    log_lines : list str;     (** lines given to [logger.error], oldest first *)
    db : list DbWrite }.

(** [int(g)] for [g] a run of one or more decimal digits, as group 1 of the
    pattern is: the number the digits write, unless the run is longer than
    [int_max_str_digits] characters, leading zeros counted; then [int] raises
    [ValueError]. *)
Definition int_of_digit_run (g : str) : Completion Z :=
  if (int_max_str_digits <? List.length g)%nat
  then Raised (OtherException
                 (py "Exceeds the limit (" ++ str_of_nat int_max_str_digits
                    ++ py " digits) for integer string conversion: value has "
                    ++ str_of_nat (List.length g)
                    ++ py " digits; use sys.set_int_max_str_digits() to increase the limit"))
  else Normal (int_of_digits g).

(** Lines 55-59: the value assigned to [status_code] for a generic exception
    of text [text], or the exception [int] raises at line 57. *)
Definition parse_status_code (text : str) : Completion Z :=
  match Re.search text with
  | Some g => int_of_digit_run g
  | None => Normal 500
  end.

(** Line 63: [int((end_time - start_time) * 1000)]. *)
Definition elapsed_ms (start_time end_time : PyFloat.float) : Completion Z :=
  PyFloat.to_int (PyFloat.mul (PyFloat.sub end_time start_time) (PyFloat.of_int 1000)).

(** ** The service *)

Section Service.

(** [openai.types.CreateEmbeddingResponse]: the service only passes it on. *)
Context {CreateEmbeddingResponse : Type}.

(** What the collaborators answer during the call. *)
Record Env : Type :=
  { (** the [n]-th value returned by [time.perf_counter()], in seconds *)
    perf_counter_at : nat -> PyFloat.float;
    (** the value of [datetime.datetime.now()] *)
    datetime_now_value : datetime;
    (** [settings.BASE_URL] *)
    BASE_URL : str;
    (** [openai.OpenAI(api_key=, base_url=).embeddings.create(input=, model=)]:
        lines 39 and 40, given the key, the base URL, the input and the
        model *)
    embeddings_create : str -> str -> Input -> str -> Completion CreateEmbeddingResponse }.

(** The local variables assigned in the [try] statement and read in its
    [finally] clause. *)
Record Locals : Type :=
  { is_success : bool;
    status_code : option Z;
    response : option CreateEmbeddingResponse;
    error_log_msg : str }.

(** Lines 25-28. *)
Definition initial_locals : Locals :=
  {| is_success := false; status_code := None; response := None;
     error_log_msg := py "" |}.

(** A statement reads the environment, changes locals and world, and
    completes. *)
Definition M (A : Type) : Type :=
  Env -> Locals * World -> Completion A * (Locals * World).

Definition ret {A} (a : A) : M A := fun _ s => (Normal a, s).

Definition bind {A B} (c : M A) (k : A -> M B) : M B :=
  fun env s =>
    match c env s with
    | (Normal a, s') => k a env s'
    | (Raised e, s') => (Raised e, s')
    end.

(** [raise e] *)
Definition raise {A} (e : PyExn) : M A := fun _ s => (Raised e, s).

Definition lift {A} (c : Completion A) : M A := fun _ s => (c, s).

Definition ask {A} (f : Env -> A) : M A := fun env s => (Normal (f env), s).

Definition get {A} (f : Locals -> A) : M A := fun _ s => (Normal (f (fst s)), s).

Definition modify_locals (f : Locals -> Locals) : M unit :=
  fun _ s => (Normal tt, (f (fst s), snd s)).

Definition modify_world (f : World -> World) : M unit :=
  fun _ s => (Normal tt, (fst s, f (snd s))).

Definition set_is_success (b : bool) : M unit :=
  modify_locals (fun l =>
    {| is_success := b; status_code := status_code l;
       response := response l; error_log_msg := error_log_msg l |}).

Definition set_status_code (c : option Z) : M unit :=
  modify_locals (fun l =>
    {| is_success := is_success l; status_code := c;
       response := response l; error_log_msg := error_log_msg l |}).

Definition set_response (r : option CreateEmbeddingResponse) : M unit :=
  modify_locals (fun l =>
    {| is_success := is_success l; status_code := status_code l;
       response := r; error_log_msg := error_log_msg l |}).

Definition set_error_log_msg (m : str) : M unit :=
  modify_locals (fun l =>
    {| is_success := is_success l; status_code := status_code l;
       response := response l; error_log_msg := m |}).

(** [try: body  except ...: ...]: [handlers e] is the body of the first
    [except] clause whose class [e] is an instance of, if there is one. *)
Definition try_except {A} (body : M A) (handlers : PyExn -> option (M A)) : M A :=
  fun env s =>
    match body env s with
    | (Normal a, s') => (Normal a, s')
    | (Raised e, s') =>
        match handlers e with
        | Some h => h env s'
        | None => (Raised e, s')
        end
    end.

(** [try: body  finally: final]: [final] runs however [body] completes;
    then [body]'s completion stands, unless [final] itself raises. *)
Definition try_finally {A} (body : M A) (final : M unit) : M A :=
  fun env s =>
    let '(r, s') := body env s in
    match final env s' with
    | (Normal _, s'') => (r, s'')
    | (Raised e, s'') => (Raised e, s'')
    end.

Declare Scope py_scope.
Delimit Scope py_scope with py.
Notation "x <- c ;; k" := (bind c (fun x => k))
  (at level 61, c at next level, right associativity) : py_scope.
Notation "c ;; k" := (bind c (fun _ => k))
  (at level 61, right associativity) : py_scope.

(** [time.perf_counter()]: the next reading of the clock. *)
Definition perf_counter : M PyFloat.float :=
  fun env s =>
    let w := snd s in
    (Normal (perf_counter_at env (clock_calls w)),
     (fst s, {| clock_calls := S (clock_calls w); log_lines := log_lines w;
                db := db w |})).

(** [datetime.datetime.now()] *)
Definition datetime_now : M datetime := ask datetime_now_value.

(** [logger.error(line)]: the logger of [app.log.logger] keeps the line. *)
Definition logger_error (line : str) : M unit :=
  modify_world (fun w =>
    {| clock_calls := clock_calls w; log_lines := log_lines w ++ [line];
       db := db w |}).

(** Modelled from the spec: [add_error_log] of [app.database.services], the
    error log sink: it is handed the entry and returns nothing. *)
Definition add_error_log (e : ErrorLog.entry) : M unit :=
  modify_world (fun w =>
    {| clock_calls := clock_calls w; log_lines := log_lines w;
       db := db w ++ [ErrorLogWrite e] |}).

(** Modelled from the spec: [add_request_log] of [app.database.services],
    the request log sink: it is handed the entry and returns nothing. *)
Definition add_request_log (r : RequestLog.entry) : M unit :=
  modify_world (fun w =>
    {| clock_calls := clock_calls w; log_lines := log_lines w;
       db := db w ++ [RequestLogWrite r] |}).

Local Open Scope py_scope.

(** Lines 39-43: the body of the [try]. *)
Definition try_body (input_text : Input) (model api_key : str)
  : M CreateEmbeddingResponse :=
  base_url <- ask BASE_URL ;;
  create <- ask embeddings_create ;;
  response <- lift (create api_key base_url input_text model) ;;
  set_response (Some response) ;;
  set_is_success true ;;
  set_status_code (Some 200) ;;
  ret response.

(** Lines 44-60: the two [except] clauses. *)
Definition except_clauses (e : PyExn) : option (M CreateEmbeddingResponse) :=
  match e with
  | APIStatusError code _ =>
      Some (set_is_success false ;;
            set_status_code (Some code) ;;
            set_error_log_msg (py "OpenAI API error: " ++ exn_str e) ;;
            msg <- get error_log_msg ;;
            logger_error (py "Error creating embedding (APIStatusError): " ++ msg) ;;
            raise e)
  | OtherException _ =>
      Some (set_is_success false ;;
            set_error_log_msg (py "Generic error: " ++ exn_str e) ;;
            msg <- get error_log_msg ;;
            logger_error (py "Error creating embedding (Exception): " ++ msg) ;;
            code <- lift (parse_status_code (exn_str e)) ;;
            set_status_code (Some code) ;;
            raise e)
  | NonException _ => None
  end.

(** Lines 62-82: the [finally] clause. *)
Definition finally_clause (start_time : PyFloat.float)
    (request_datetime : datetime) (request_msg_log : RequestMsgLog)
    (model api_key : str) : M unit :=
  end_time <- perf_counter ;;
  latency_ms <- lift (elapsed_ms start_time end_time) ;;
  ok <- get is_success ;;
  (if negb ok
   then msg <- get error_log_msg ;;
        code <- get status_code ;;
        add_error_log
          {| ErrorLog.gemini_key := api_key;
             ErrorLog.model_name := model;
             ErrorLog.error_type := py "openai-embedding";
             ErrorLog.error_log := msg;
             ErrorLog.error_code := code;
             ErrorLog.request_msg := request_msg_log |}
   else ret tt) ;;
  ok <- get is_success ;;
  code <- get status_code ;;
  add_request_log
    {| RequestLog.model_name := model;
       RequestLog.api_key := api_key;
       RequestLog.is_success := ok;
       RequestLog.status_code := code;
       RequestLog.latency_ms := latency_ms;
       RequestLog.request_time := request_datetime |}.

(** [EmbeddingService.create_embedding(input_text, model, api_key)]: how the
    call completes for its caller, and the world it leaves. *)
Definition create_embedding (input_text : Input) (model api_key : str)
    (env : Env) (w : World) : Completion CreateEmbeddingResponse * World :=
  let body : M CreateEmbeddingResponse :=
    start_time <- perf_counter ;;
    request_datetime <- datetime_now ;;
    let request_msg_log := build_request_msg_log input_text in
    try_finally
      (try_except (try_body input_text model api_key) except_clauses)
      (finally_clause start_time request_datetime request_msg_log model api_key)
  in
  let '(r, (_, w')) := body env (initial_locals, w) in (r, w').

End Service.

(** ** Notions used in the statements *)

(** A reading of the clock: a finite float, below [2 ^ 1000] seconds in
    magnitude. *)
Definition reading_in_range (x : PyFloat.float) : bool :=
  PyFloat.is_finite x && PyFloat.below_pow2 1000 x.

(** The clock only gives such readings. *)
Definition clock_in_range {R : Type} (env : @Env R) : Prop :=
  forall n, reading_in_range (perf_counter_at env n) = true.

(** The clock is monotonic: a later reading is not below an earlier one. *)
Definition clock_monotonic {R : Type} (env : @Env R) : Prop :=
  forall n m, (n <= m)%nat ->
    PyFloat.leb (perf_counter_at env n) (perf_counter_at env m) = true.

(** The call returned. *)
Definition succeeded {A : Type} (c : Completion A) : bool :=
  match c with Normal _ => true | Raised _ => false end.

(** The entries among a sequence of writes, by sink. *)
Definition request_logs (writes : list DbWrite) : list RequestLog.entry :=
  flat_map (fun wr => match wr with RequestLogWrite r => [r] | _ => [] end) writes.

Definition error_logs (writes : list DbWrite) : list ErrorLog.entry :=
  flat_map (fun wr => match wr with ErrorLogWrite e => [e] | _ => [] end) writes.

(** The credential and the status code an entry carries. *)
Definition credential_of (wr : DbWrite) : str :=
  match wr with
  | ErrorLogWrite e => ErrorLog.gemini_key e
  | RequestLogWrite r => RequestLog.api_key r
  end.

Definition status_of (wr : DbWrite) : option Z :=
  match wr with
  | ErrorLogWrite e => ErrorLog.error_code e
  | RequestLogWrite r => RequestLog.status_code r
  end.

(** [needle in hay] *)
Definition contains (needle hay : str) : Prop :=
  exists pre post, hay = pre ++ needle ++ post.

(** The text fields of an entry. *)
Definition text_fields (wr : DbWrite) : list str :=
  match wr with
  | ErrorLogWrite e =>
      [ErrorLog.gemini_key e; ErrorLog.model_name e; ErrorLog.error_type e;
       ErrorLog.error_log e]
  | RequestLogWrite r => [RequestLog.model_name r; RequestLog.api_key r]
  end.

(** The entry holds the complete credential in one of its text fields. *)
Definition exposes (key : str) (wr : DbWrite) : Prop :=
  exists field, In field (text_fields wr) /\ contains key field.

(** The pattern ["status code <digit>"] occurs in [text] right after [pre]. *)
Definition occurs_after (text pre : str) : Prop :=
  exists d rest, text = pre ++ Re.keyword ++ d :: rest /\ is_digit d = true.

(** [rest] does not go on with a digit. *)
Definition no_digit_ahead (rest : str) : Prop :=
  match rest with
  | [] => True
  | c :: _ => is_digit c = false
  end.

(** [short] is [text] cut to [n] characters, with the ellipsis when it was
    longer. *)
Definition capped (n : nat) (text short : str) : Prop :=
  ((List.length text <= n)%nat -> short = text) /\
  ((n < List.length text)%nat -> short = firstn n text ++ py "...").

(** The exponent function of binary64, and a float of sign [s] that is zero or
    has magnitude below [2 ^ B] and exponent at most [B - 53]. *)
Definition fexp64 : Z -> Z := fexp PyFloat.prec PyFloat.emax.

Definition sized (s : bool) (B : Z) (x : spec_float) : Prop :=
  x = S754_zero s \/
  exists m e, x = S754_finite s m e /\ Zpos (digits2_pos m) + e <= B /\ e <= B - 53.

(** What the call handed to the sinks. *)
Definition written_by {R : Type} (input_text : Input) (model api_key : str)
    (env : @Env R) (w : World) : list DbWrite :=
  skipn (List.length (db w)) (db (snd (create_embedding input_text model api_key env w))).

(** The reading of [contains "status code 503"] that takes any occurrence:
    a generic exception whose text contains ["status code 503"] is logged
    with the status code 503. *)
Definition any_occurrence_gives_503 {R : Type} (input_text : Input)
    (model api_key : str) (env : @Env R) (w : World) (text : str) : Prop :=
  embeddings_create env api_key (BASE_URL env) input_text model
    = Raised (OtherException text) ->
  contains (py "status code 503") text ->
  forall wr, In wr (written_by input_text model api_key env w) ->
             status_of wr = Some 503.

(** No entry handed to the sinks holds the complete credential. *)
Definition credential_never_in_full {R : Type} (input_text : Input)
    (model api_key : str) (env : @Env R) (w : World) : Prop :=
  forall wr, In wr (written_by input_text model api_key env w) ->
             ~ exposes api_key wr.

(** ** A call used as an example *)

Module Example.

(** The clock reads 1.0 s, then 1.5 s. *)
Definition clock (n : nat) : PyFloat.float :=
  match n with
  | O => S754_finite false 4503599627370496 (-52)
  | S _ => S754_finite false 6755399441055744 (-52)
  end.

Definition now : datetime :=
  {| year := 2024; month := 5; day := 17; hour := 9; minute := 30;
     second := 0; microsecond := 250000 |}.

(** The provider answers every request with [outcome]. *)
Definition env (outcome : Completion (list Z)) : @Env (list Z) :=
  {| perf_counter_at := clock;
     datetime_now_value := now;
     BASE_URL := py "https://api.example.test/v1";
     embeddings_create := fun _ _ _ _ => outcome |}.

Definition world : World := {| clock_calls := 0; log_lines := []; db := [] |}.

Definition model : str := py "text-embed-1".
Definition key : str := py "k1".

(** The call on [input_text], when the provider answers with [outcome]. *)
Definition call (input_text : Input) (outcome : Completion (list Z))
  : Completion (list Z) * World :=
  create_embedding input_text model key (env outcome) world.

(** What that call handed to the sinks. *)
Definition written (input_text : Input) (outcome : Completion (list Z))
  : list DbWrite :=
  written_by input_text model key (env outcome) world.

Definition hello : Input := InputStr (py "hello").

Definition rate_limited : PyExn := APIStatusError 429 (py "rate limited").
Definition connection_error : PyExn := OtherException (py "Connection error.").
Definition unavailable : str :=
  py "upstream failed with status code 503: unavailable".

(** Seven strings, the fourth of 120 characters. *)
Definition seven : list str :=
  [py "a"; py "b"; py "c"; repeat 120%N 120; py "e"; py "f"; py "g"].

End Example.

(** ** Further notions *)

(** An input the preview has no reason to cut: a string of at most 1000
    characters, or a list of at most five strings of at most 100 characters. *)
Definition within_limits (input_text : Input) : Prop :=
  match input_text with
  | InputStr s => (List.length s <= 1000)%nat
  | InputList l =>
      (List.length l <= 5)%nat /\ Forall (fun s => (List.length s <= 100)%nat) l
  end.

(** The input itself, as a preview. *)
Definition verbatim (input_text : Input) : InputTruncated :=
  match input_text with
  | InputStr s => TruncatedStr s
  | InputList l => TruncatedList l
  end.

(** The class name the [except] clause that catches [e] puts in its log
    line. *)
Definition clause_name (e : PyExn) : str :=
  match e with
  | APIStatusError _ _ => py "APIStatusError"
  | _ => py "Exception"
  end.

(** The lines the call gave to [logger.error]. *)
Definition logged_by {R : Type} (input_text : Input) (model api_key : str)
    (env : @Env R) (w : World) : list str :=
  skipn (List.length (log_lines w))
        (log_lines (snd (create_embedding input_text model api_key env w))).

(** Further example values: a clock that is at 1.0 s when the call starts and
    at infinity when it ends, a world that already holds entries, and two
    readings of a clock that steps back. *)
Module Cases.

Definition clock (n : nat) : PyFloat.float :=
  match n with
  | O => S754_finite false 4503599627370496 (-52)
  | S _ => S754_infinity false
  end.

Definition env (outcome : Completion (list Z)) : @Env (list Z) :=
  {| perf_counter_at := clock;
     datetime_now_value := Example.now;
     BASE_URL := py "https://api.example.test/v1";
     embeddings_create := fun _ _ _ _ => outcome |}.

(** A world in which the sinks and the logger already hold something. *)
Definition used_world : World :=
  {| clock_calls := 0;
     log_lines := [py "Error creating embedding (Exception): Generic error: x"];
     db := Example.written Example.hello (Raised Example.connection_error) |}.

Definition later : PyFloat.float := S754_finite false 6755399441055744 (-52).
Definition earlier : PyFloat.float := S754_finite false 4503599627370496 (-52).

(** The text ["status code "] followed by 4301 times the digit ["1"]. *)
Definition long_run : str := py "status code " ++ repeat 49%N 4301.

End Cases.

(** * Facts *)

(** ** Binary64 arithmetic: digits, rounding, sizes *)

Lemma digits2_pos_bounds (m : positive) :
  2 ^ (Zpos (digits2_pos m) - 1) <= Zpos m < 2 ^ Zpos (digits2_pos m).
Proof.
  induction m as [m IH | m IH |]; cbn [digits2_pos].
  - rewrite Pos2Z.inj_succ, Pos2Z.inj_xI.
    replace (Z.succ (Zpos (digits2_pos m)) - 1) with (Z.succ (Zpos (digits2_pos m) - 1)) by lia.
    rewrite !Z.pow_succ_r by lia.
    destruct IH. set (u := 2 ^ (Zpos (digits2_pos m) - 1)) in *. set (v := 2 ^ Zpos (digits2_pos m)) in *. clearbody u v. lia.
  - rewrite Pos2Z.inj_succ. change (Zpos m~0) with (2 * Zpos m).
    replace (Z.succ (Zpos (digits2_pos m)) - 1) with (Z.succ (Zpos (digits2_pos m) - 1)) by lia.
    rewrite !Z.pow_succ_r by lia.
    destruct IH. set (u := 2 ^ (Zpos (digits2_pos m) - 1)) in *. set (v := 2 ^ Zpos (digits2_pos m)) in *. clearbody u v. lia.
  - simpl. lia.
Qed.

Lemma Zdigits2_nonneg (m : Z) : 0 <= Zdigits2 m.
Proof. destruct m; simpl; lia. Qed.

Lemma Zdigits2_le_iff (m k : Z) :
  0 <= m -> 0 <= k -> (Zdigits2 m <= k <-> m < 2 ^ k).
Proof.
  intros Hm Hk. destruct m as [| p | p]; [| | lia]; cbn [Zdigits2].
  - split; intros; [apply Z.pow_pos_nonneg|]; lia.
  - pose proof (digits2_pos_bounds p) as [Hlo Hhi]. split; intro H.
    + eapply Z.lt_le_trans; [exact Hhi|]. apply Z.pow_le_mono_r; lia.
    + destruct (Z_le_gt_dec (Zpos (digits2_pos p)) k) as [|Hgt]; [assumption|].
      exfalso. assert (2 ^ k <= 2 ^ (Zpos (digits2_pos p) - 1)) by (apply Z.pow_le_mono_r; lia).
      lia.
Qed.

Lemma Zdigits2_mono (a b : Z) : 0 <= a <= b -> Zdigits2 a <= Zdigits2 b.
Proof.
  intros [Ha Hab]. apply Zdigits2_le_iff; [lia | apply Zdigits2_nonneg |].
  assert (b < 2 ^ Zdigits2 b) by (apply Zdigits2_le_iff; [lia | apply Zdigits2_nonneg | lia]).
  lia.
Qed.

Lemma Zdigits2_succ (a : Z) : 0 <= a -> Zdigits2 (a + 1) <= Zdigits2 a + 1.
Proof.
  intro Ha. pose proof (Zdigits2_nonneg a) as Hd.
  apply Zdigits2_le_iff; [lia | lia |].
  assert (a < 2 ^ Zdigits2 a) by (apply Zdigits2_le_iff; lia).
  rewrite Z.pow_add_r by lia. change (2 ^ 1) with 2.
  set (u := 2 ^ Zdigits2 a) in *. clearbody u. lia.
Qed.

Lemma Zdigits2_add (a b : Z) :
  0 <= a -> 0 <= b -> Zdigits2 (a + b) <= Z.max (Zdigits2 a) (Zdigits2 b) + 1.
Proof.
  intros Ha Hb. pose proof (Zdigits2_nonneg a). pose proof (Zdigits2_nonneg b).
  apply Zdigits2_le_iff; [lia | lia |].
  assert (a < 2 ^ Zdigits2 a) by (apply Zdigits2_le_iff; lia).
  assert (b < 2 ^ Zdigits2 b) by (apply Zdigits2_le_iff; lia).
  assert (2 ^ Zdigits2 a <= 2 ^ Z.max (Zdigits2 a) (Zdigits2 b)) by (apply Z.pow_le_mono_r; lia).
  assert (2 ^ Zdigits2 b <= 2 ^ Z.max (Zdigits2 a) (Zdigits2 b)) by (apply Z.pow_le_mono_r; lia).
  rewrite Z.pow_add_r by lia. change (2 ^ 1) with 2.
  set (u := 2 ^ Z.max _ _) in *. clearbody u. lia.
Qed.

Lemma Zdigits2_mul (a b : Z) :
  0 <= a -> 0 <= b -> Zdigits2 (a * b) <= Zdigits2 a + Zdigits2 b.
Proof.
  intros Ha Hb. pose proof (Zdigits2_nonneg a). pose proof (Zdigits2_nonneg b).
  apply Zdigits2_le_iff; [nia | lia |].
  assert (a < 2 ^ Zdigits2 a) by (apply Zdigits2_le_iff; lia).
  assert (b < 2 ^ Zdigits2 b) by (apply Zdigits2_le_iff; lia).
  rewrite Z.pow_add_r by lia.
  assert (0 < 2 ^ Zdigits2 a) by (apply Z.pow_pos_nonneg; lia).
  assert (0 < 2 ^ Zdigits2 b) by (apply Z.pow_pos_nonneg; lia).
  set (u := 2 ^ Zdigits2 a) in *. set (v := 2 ^ Zdigits2 b) in *. clearbody u v. nia.
Qed.

Lemma Zdigits2_shiftr (a n B e : Z) :
  0 <= a -> 0 < n -> Zdigits2 a + e <= B -> e + n <= B ->
  Zdigits2 (Z.shiftr a n) + (e + n) <= B.
Proof.
  intros Ha Hn Hd He.
  pose proof (Zdigits2_nonneg a) as Hda.
  assert (Hs : 0 <= Z.shiftr a n) by (apply Z.shiftr_nonneg; lia).
  assert (Hlt : a < 2 ^ Zdigits2 a) by (apply Zdigits2_le_iff; lia).
  cut (Zdigits2 (Z.shiftr a n) <= B - e - n); [lia|].
  apply Zdigits2_le_iff; [lia | lia |].
  rewrite Z.shiftr_div_pow2 by lia.
  apply Z.div_lt_upper_bound; [apply Z.pow_pos_nonneg; lia|].
  rewrite <- Z.pow_add_r by lia.
  eapply Z.lt_le_trans; [exact Hlt|]. apply Z.pow_le_mono_r; lia.
Qed.

Lemma shr_1_m (r : shr_record) :
  0 <= shr_m r -> shr_m (shr_1 r) = Z.shiftr (shr_m r) 1.
Proof.
  destruct r as [m b s]; cbn [shr_m]. intro Hm.
  destruct m as [| [p | p |] | p]; try reflexivity; lia.
Qed.

Lemma iter_shr_1_m (p : positive) (r : shr_record) :
  0 <= shr_m r -> shr_m (iter_pos shr_1 p r) = Z.shiftr (shr_m r) (Zpos p).
Proof.
  revert r. induction p as [p IH | p IH |]; intros r Hr; cbn [iter_pos].
  - assert (H1 : 0 <= shr_m (shr_1 r)) by (rewrite shr_1_m by assumption; apply Z.shiftr_nonneg; assumption).
    assert (H2 : 0 <= shr_m (iter_pos shr_1 p (shr_1 r))) by (rewrite IH by assumption; apply Z.shiftr_nonneg; assumption).
    rewrite IH, IH, shr_1_m by assumption.
    rewrite !Z.shiftr_shiftr by lia. f_equal. lia.
  - assert (H2 : 0 <= shr_m (iter_pos shr_1 p r)) by (rewrite IH by assumption; apply Z.shiftr_nonneg; assumption).
    rewrite IH, IH by assumption.
    rewrite !Z.shiftr_shiftr by lia. f_equal. lia.
  - apply shr_1_m; assumption.
Qed.

Lemma shr_m_of_loc (m : Z) (l : location) : shr_m (shr_record_of_loc m l) = m.
Proof. destruct l as [| []]; reflexivity. Qed.

Lemma fexp64_le (x B : Z) : x <= B -> -1074 + 53 <= B -> fexp64 x <= B - 53.
Proof. unfold fexp64, fexp, emin, PyFloat.prec, PyFloat.emax. lia. Qed.

(** One truncation step keeps the mantissa non-negative, and magnitude and
    exponent below their bounds. *)
Lemma shr_fexp_bound (m e : Z) (l : location) (B : Z) :
  0 <= m -> -1021 <= B -> Zdigits2 m + e <= B -> e <= B - 53 ->
  let '(r, e') := shr_fexp PyFloat.prec PyFloat.emax m e l in
  0 <= shr_m r /\ Zdigits2 (shr_m r) + e' <= B /\ e' <= B - 53.
Proof.
  intros Hm HB Hd He. unfold shr_fexp, shr.
  fold (fexp64 (Zdigits2 m + e)).
  pose proof (fexp64_le (Zdigits2 m + e) B Hd ltac:(lia)) as Hf.
  destruct (fexp64 (Zdigits2 m + e) - e) as [| n | n] eqn:En.
  - rewrite shr_m_of_loc. lia.
  - rewrite iter_shr_1_m by (rewrite shr_m_of_loc; assumption).
    rewrite shr_m_of_loc. split; [apply Z.shiftr_nonneg; assumption|].
    split; [apply Zdigits2_shiftr; lia | lia].
  - rewrite shr_m_of_loc. lia.
Qed.

Lemma round_nearest_even_bound (m : Z) (l : location) :
  0 <= m -> 0 <= round_nearest_even m l /\ Zdigits2 (round_nearest_even m l) <= Zdigits2 m + 1.
Proof.
  intro Hm. pose proof (Zdigits2_succ m Hm). 
  unfold round_nearest_even. destruct l as [| []]; try destruct (Z.even m); lia.
Qed.

Lemma binary_round_aux_bound (s : bool) (m e : Z) (l : location) (B : Z) :
  0 <= m -> -1021 <= B -> B <= 1023 -> Zdigits2 m + e <= B -> e <= B - 53 ->
  binary_round_aux PyFloat.prec PyFloat.emax s m e l = S754_zero s \/
  exists m' e', binary_round_aux PyFloat.prec PyFloat.emax s m e l = S754_finite s m' e' /\
                Zpos (digits2_pos m') + e' <= B + 1 /\ e' <= B + 1 - 53.
Proof.
  intros Hm HB HB' Hd He. unfold binary_round_aux.
  pose proof (shr_fexp_bound m e l B Hm HB Hd He) as H1.
  destruct (shr_fexp PyFloat.prec PyFloat.emax m e l) as [r1 e1].
  destruct H1 as (Hr1 & Hd1 & He1).
  pose proof (round_nearest_even_bound (shr_m r1) (loc_of_shr_record r1) Hr1) as [Hn Hdn].
  pose proof (shr_fexp_bound (round_nearest_even (shr_m r1) (loc_of_shr_record r1)) e1 loc_Exact (B + 1) Hn ltac:(lia) ltac:(lia) ltac:(lia)) as H2.
  destruct (shr_fexp PyFloat.prec PyFloat.emax _ e1 loc_Exact) as [r2 e2].
  destruct H2 as (Hr2 & Hd2 & He2).
  destruct (shr_m r2) as [| p | p] eqn:Em; [left; reflexivity | right | lia].
  assert (Hle : (e2 <=? PyFloat.emax - PyFloat.prec) = true)
    by (apply Z.leb_le; unfold PyFloat.emax, PyFloat.prec; lia).
  rewrite Hle. exists p, e2. cbn [Zdigits2] in Hd2. auto.
Qed.

Lemma Zdigits2_mul_pow2 (a n : Z) :
  0 <= a -> 0 <= n -> Zdigits2 (a * 2 ^ n) <= Zdigits2 a + n.
Proof.
  intros Ha Hn. pose proof (Zdigits2_nonneg a).
  assert (0 < 2 ^ n) by (apply Z.pow_pos_nonneg; lia).
  apply Zdigits2_le_iff; [nia | lia |].
  assert (a < 2 ^ Zdigits2 a) by (apply Zdigits2_le_iff; lia).
  rewrite Z.pow_add_r by lia.
  set (u := 2 ^ Zdigits2 a) in *. set (v := 2 ^ n) in *. clearbody u v. nia.
Qed.

Lemma iter_xO_pow2 (m d : positive) : Zpos (Pos.iter xO m d) = Zpos m * 2 ^ Zpos d.
Proof.
  rewrite (Pos.iter_swap_gen _ _ Zpos xO (Z.mul 2)) by reflexivity.
  change (Pos.iter (Z.mul 2) (Zpos m) d) with (Z.shiftl (Zpos m) (Zpos d)).
  apply Z.shiftl_mul_pow2. lia.
Qed.

Lemma shl_align_spec (m : positive) (e e' : Z) :
  snd (shl_align m e e') = Z.min e e' /\
  Zpos (fst (shl_align m e e')) = Zpos m * 2 ^ (e - Z.min e e').
Proof.
  unfold shl_align. destruct (e' - e) as [| d | d] eqn:Ed; cbn [fst snd].
  - replace (Z.min e e') with e by lia. rewrite Z.sub_diag. simpl. lia.
  - replace (Z.min e e') with e by lia. rewrite Z.sub_diag. simpl. lia.
  - replace (Z.min e e') with e' by lia. split; [reflexivity|].
    rewrite iter_xO_pow2. f_equal. f_equal. lia.
Qed.

Lemma shl_align_bound (m : positive) (e e' B : Z) :
  Zpos (digits2_pos m) + e <= B ->
  Zdigits2 (Zpos (fst (shl_align m e e'))) + snd (shl_align m e e') <= B /\
  snd (shl_align m e e') <= e.
Proof.
  intro H. destruct (shl_align_spec m e e') as [Hs Hf]. rewrite Hf, Hs.
  split; [|lia].
  pose proof (Zdigits2_mul_pow2 (Zpos m) (e - Z.min e e') ltac:(lia) ltac:(lia)) as Hd.
  change (Zdigits2 (Zpos m)) with (Zpos (digits2_pos m)) in Hd. lia.
Qed.

Lemma binary_round_bound (s : bool) (m : positive) (e B : Z) :
  -1021 <= B -> B <= 1023 -> Zpos (digits2_pos m) + e <= B -> e <= B - 53 ->
  sized s (B + 1) (binary_round PyFloat.prec PyFloat.emax s m e).
Proof.
  intros HB HB' Hd He. unfold binary_round.
  pose proof (shl_align_bound m e (fexp PyFloat.prec PyFloat.emax (Zpos (digits2_pos m) + e)) B Hd) as [H1 H2].
  destruct (shl_align m e _) as [mz ez]. cbn [fst snd] in H1, H2.
  apply binary_round_aux_bound; try assumption; lia.
Qed.

Lemma binary_normalize_bound (z e B : Z) :
  -1021 <= B -> B <= 1023 -> Zdigits2 (Z.abs z) + e <= B -> e <= B - 53 ->
  sized (z <? 0) (B + 1) (binary_normalize PyFloat.prec PyFloat.emax z e false).
Proof.
  intros HB HB' Hd He. destruct z as [| p | p]; cbn [binary_normalize Z.ltb Z.compare].
  - left; reflexivity.
  - apply binary_round_bound; assumption.
  - apply binary_round_bound; assumption.
Qed.

Lemma canonical_exponent (m : positive) (e K : Z) :
  canonical_mantissa PyFloat.prec PyFloat.emax m e = true ->
  -1074 <= e /\ Zpos (digits2_pos m) <= 53 /\
  (-1074 < e -> Zpos (digits2_pos m) = 53) /\
  (-1021 <= K -> Zpos (digits2_pos m) + e <= K -> e <= K - 53).
Proof.
  unfold canonical_mantissa, fexp, emin, PyFloat.prec, PyFloat.emax.
  intro H. apply Z.eqb_eq in H. lia.
Qed.

Lemma canonical_lt (m1 m2 : positive) (e1 e2 : Z) :
  canonical_mantissa PyFloat.prec PyFloat.emax m1 e1 = true ->
  canonical_mantissa PyFloat.prec PyFloat.emax m2 e2 = true ->
  e1 < e2 -> Zpos m1 < Zpos m2 * 2 ^ (e2 - e1).
Proof.
  intros H1 H2 Hlt.
  destruct (canonical_exponent m1 e1 0 H1) as (Hlo1 & Hd1 & _).
  destruct (canonical_exponent m2 e2 0 H2) as (_ & _ & Hd2 & _).
  specialize (Hd2 ltac:(lia)).
  pose proof (digits2_pos_bounds m1) as [_ Hm1].
  pose proof (digits2_pos_bounds m2) as [Hm2 _]. rewrite Hd2 in Hm2.
  assert (2 ^ Zpos (digits2_pos m1) <= 2 ^ 53) by (apply Z.pow_le_mono_r; lia).
  assert (2 ^ 1 <= 2 ^ (e2 - e1)) by (apply Z.pow_le_mono_r; lia).
  change (2 ^ (53 - 1)) with 4503599627370496 in Hm2.
  change (2 ^ 53) with 9007199254740992 in H.
  change (2 ^ 1) with 2 in H0.
  set (u := 2 ^ (e2 - e1)) in *. clearbody u. nia.
Qed.

Lemma sized_weaken (s : bool) (B B' : Z) (x : spec_float) :
  B <= B' -> sized s B x -> sized s B' x.
Proof.
  intros HB [H | (m & e & H & H1 & H2)]; [left; assumption | right].
  exists m, e. repeat split; [assumption | lia | lia].
Qed.

Lemma finite_inv (K : Z) (s : bool) (m : positive) (e : Z) :
  -1021 <= K ->
  PyFloat.is_finite (S754_finite s m e) = true ->
  PyFloat.below_pow2 K (S754_finite s m e) = true ->
  canonical_mantissa PyFloat.prec PyFloat.emax m e = true /\
  Zpos (digits2_pos m) + e <= K /\ e <= K - 53.
Proof.
  unfold PyFloat.is_finite, PyFloat.below_pow2, valid_binary, bounded.
  intros HK Hf Hb. rewrite andb_true_r in Hf. apply andb_prop in Hf as [Hc _].
  apply Z.leb_le in Hb. split; [assumption|]. split; [assumption|].
  apply (canonical_exponent m e K Hc); assumption.
Qed.

Lemma sub_sized (K : Z) (x y : PyFloat.float) :
  -1021 <= K -> K <= 1021 ->
  PyFloat.is_finite x = true -> PyFloat.is_finite y = true ->
  PyFloat.below_pow2 K x = true -> PyFloat.below_pow2 K y = true ->
  exists s, sized s (K + 2) (PyFloat.sub x y) /\
            (PyFloat.leb y x = true ->
             s = false \/ exists s', PyFloat.sub x y = S754_zero s').
Proof.
  intros HK HK' Hfx Hfy Hbx Hby.
  destruct x as [sx | sx | | sx mx ex]; try discriminate;
  destruct y as [sy | sy | | sy my ey]; try discriminate.
  - (* zero - zero *)
    exists (match sx, sy with true, false => true | _, _ => false end).
    split; [left; destruct sx, sy; reflexivity|].
    intros _. right. destruct sx, sy; eexists; reflexivity.
  - (* zero - finite *)
    destruct (finite_inv K sy my ey HK Hfy Hby) as (_ & Hd & He).
    exists (negb sy). split.
    + right. exists my, ey. repeat split; [lia | lia].
    + intro Hle. left. destruct sy; [reflexivity | discriminate].
  - (* finite - zero *)
    destruct (finite_inv K sx mx ex HK Hfx Hbx) as (_ & Hd & He).
    exists sx. split.
    + right. exists mx, ex. repeat split; [lia | lia].
    + intro Hle. left. destruct sx; [discriminate | reflexivity].
  - (* finite - finite *)
    destruct (finite_inv K sx mx ex HK Hfx Hbx) as (Hcx & Hdx & Hex).
    destruct (finite_inv K sy my ey HK Hfy Hby) as (Hcy & Hdy & Hey).
    unfold PyFloat.sub, SFsub.
    destruct (shl_align_spec mx ex (Z.min ex ey)) as [_ HX].
    destruct (shl_align_spec my ey (Z.min ex ey)) as [_ HY].
    replace (Z.min ex (Z.min ex ey)) with (Z.min ex ey) in HX by lia.
    replace (Z.min ey (Z.min ex ey)) with (Z.min ex ey) in HY by lia.
    pose proof (Zdigits2_mul_pow2 (Zpos mx) (ex - Z.min ex ey) ltac:(lia) ltac:(lia)) as HdX.
    pose proof (Zdigits2_mul_pow2 (Zpos my) (ey - Z.min ex ey) ltac:(lia) ltac:(lia)) as HdY.
    rewrite <- HX in HdX. rewrite <- HY in HdY.
    change (Zdigits2 (Zpos mx)) with (Zpos (digits2_pos mx)) in HdX.
    change (Zdigits2 (Zpos my)) with (Zpos (digits2_pos my)) in HdY.
    set (X := Zpos (fst (shl_align mx ex (Z.min ex ey)))) in *.
    set (Y := Zpos (fst (shl_align my ey (Z.min ex ey)))) in *.
    set (d := cond_Zopp sx X - cond_Zopp sy Y).
    assert (HXpos : 0 < X) by (unfold X; lia).
    assert (HYpos : 0 < Y) by (unfold Y; lia).
    assert (Habs : Z.abs d <= X + Y) by (unfold d; destruct sx, sy; cbn [cond_Zopp]; lia).
    assert (Hdd : Zdigits2 (Z.abs d) + Z.min ex ey <= K + 1).
    { pose proof (Zdigits2_mono (Z.abs d) (X + Y) ltac:(lia)).
      pose proof (Zdigits2_add X Y ltac:(lia) ltac:(lia)). lia. }
    exists (d <? 0). split.
    + replace (K + 2) with (K + 1 + 1) by lia.
      apply (binary_normalize_bound d (Z.min ex ey) (K + 1)); lia.
    + intro Hle. left. apply Z.ltb_ge.
      unfold PyFloat.leb, SFleb, SFcompare in Hle.
      change (Pos.compare_cont Eq my mx) with (my ?= mx)%positive in Hle.
      unfold d. destruct sy, sx; cbn [cond_Zopp]; [| lia | discriminate |].
      * (* both negative: |x| <= |y| *)
        destruct (Z.compare_spec ey ex) as [Heq | Hlt | Hgt]; [| discriminate |].
        -- subst ey. rewrite Z.min_id, Z.sub_diag, Z.mul_1_r in HX, HY.
           destruct (Pos.compare_spec my mx) as [Hc | Hc | Hc]; [| discriminate |]; lia.
        -- pose proof (canonical_lt mx my ex ey Hcx Hcy Hgt) as Hlt.
           replace (Z.min ex ey) with ex in HX, HY by lia.
           rewrite Z.sub_diag, Z.mul_1_r in HX. lia.
      * (* both non-negative: y <= x *)
        destruct (Z.compare_spec ey ex) as [Heq | Hlt | Hgt]; [| | discriminate].
        -- subst ey. rewrite Z.min_id, Z.sub_diag, Z.mul_1_r in HX, HY.
           destruct (Pos.compare_spec my mx) as [Hc | Hc | Hc]; [| | discriminate]; lia.
        -- pose proof (canonical_lt my mx ey ex Hcy Hcx Hlt) as Hlt'.
           replace (Z.min ex ey) with ey in HX, HY by lia.
           rewrite Z.sub_diag, Z.mul_1_r in HY. lia.
Qed.

Lemma mul_1000_sized (s : bool) (B : Z) (x : PyFloat.float) :
  -1021 <= B -> B <= 1013 -> sized s B x ->
  sized s (B + 11) (PyFloat.mul x (PyFloat.of_int 1000)).
Proof.
  intros HB HB' [Hx | (m & e & Hx & Hd & He)]; subst x.
  - left. destruct s; reflexivity.
  - change (PyFloat.of_int 1000) with (S754_finite false 8796093022208000 (-43)).
    unfold PyFloat.mul, SFmul. rewrite xorb_false_r.
    replace (B + 11) with (B + 10 + 1) by lia.
    apply binary_round_aux_bound; try lia.
    pose proof (Zdigits2_mul (Zpos m) 8796093022208000 ltac:(lia) ltac:(lia)) as Hm.
    change (Zdigits2 8796093022208000) with 53 in Hm.
    change (Zdigits2 (Zpos m)) with (Zpos (digits2_pos m)) in Hm.
    change (Zpos (m * 8796093022208000)) with (Zpos m * 8796093022208000). lia.
Qed.

Lemma to_int_sized (s : bool) (B : Z) (x : PyFloat.float) :
  sized s B x ->
  exists z, PyFloat.to_int x = Normal z /\ (s = false -> 0 <= z) /\
            ((exists s', x = S754_zero s') -> z = 0).
Proof.
  intros [Hx | (m & e & Hx & _)]; subst x; cbn [PyFloat.to_int].
  - exists 0. repeat split; intros; lia.
  - eexists. split; [reflexivity|]. split.
    + intros ->. cbn [cond_Zopp]. apply Z.shiftl_nonneg. lia.
    + intros [s' H]. discriminate.
Qed.

(** ** The search for the status code *)

Lemma strip_prefix_spec (p s r : str) : Re.strip_prefix p s = Some r <-> s = p ++ r.
Proof.
  revert s. induction p as [| a p IH]; intros s; cbn [Re.strip_prefix app].
  - split; congruence.
  - destruct s as [| b s]; [split; discriminate|].
    destruct (N.eqb_spec a b) as [-> | Hne].
    + rewrite IH. split; congruence.
    + split; [discriminate | congruence].
Qed.

Lemma digit_run_app (g rest : str) :
  Forall (fun c => is_digit c = true) g -> no_digit_ahead rest ->
  Re.digit_run (g ++ rest) = g.
Proof.
  intros Hg Hrest. induction Hg as [| c g Hc Hg IH]; cbn [app Re.digit_run].
  - destruct rest as [| c rest]; [reflexivity|]. cbn in Hrest |- *. now rewrite Hrest.
  - rewrite Hc, IH. reflexivity.
Qed.

Lemma match_here_occurs (s g : str) :
  Re.match_here s = Some g -> occurs_after s [].
Proof.
  unfold Re.match_here. destruct (Re.strip_prefix Re.keyword s) as [r |] eqn:Hs; [|discriminate].
  apply strip_prefix_spec in Hs. destruct r as [| c r]; cbn [Re.digit_run]; [discriminate|].
  destruct (is_digit c) eqn:Hc; [|discriminate]. intros _.
  exists c, r. split; [exact Hs | exact Hc].
Qed.

Lemma occurs_after_cons (a : N) (t pre : str) :
  occurs_after (a :: t) (a :: pre) <-> occurs_after t pre.
Proof.
  unfold occurs_after. split; intros (d & rest & H & Hd); exists d, rest; (split; [|exact Hd]).
  - cbn [app] in H. congruence.
  - cbn [app]. congruence.
Qed.

Lemma search_none (text : str) :
  (forall pre, ~ occurs_after text pre) -> Re.search text = None.
Proof.
  induction text as [| a t IH]; intro Hno; cbn [Re.search].
  - destruct (Re.match_here []) as [g |] eqn:Hm; [|reflexivity].
    exfalso. exact (Hno [] (match_here_occurs _ _ Hm)).
  - destruct (Re.match_here (a :: t)) as [g |] eqn:Hm.
    + exfalso. exact (Hno [] (match_here_occurs _ _ Hm)).
    + apply IH. intros pre Hocc. apply (Hno (a :: pre)). now apply occurs_after_cons.
Qed.

Lemma search_leftmost (pre g rest : str) :
  g <> [] -> Forall (fun c => is_digit c = true) g -> no_digit_ahead rest ->
  (forall pre', occurs_after (pre ++ Re.keyword ++ g ++ rest) pre' ->
                (List.length pre <= List.length pre')%nat) ->
  Re.search (pre ++ Re.keyword ++ g ++ rest) = Some g.
Proof.
  intros Hne Hg Hrest. induction pre as [| a pre IH]; intro Hleft.
  - cbn [app]. assert (Hm : Re.match_here (Re.keyword ++ g ++ rest) = Some g).
    { unfold Re.match_here.
      rewrite (proj2 (strip_prefix_spec Re.keyword _ (g ++ rest)) eq_refl).
      rewrite digit_run_app by assumption. destruct g; [contradiction | reflexivity]. }
    destruct (Re.keyword ++ g ++ rest); cbn [Re.search]; rewrite Hm; reflexivity.
  - cbn [app Re.search].
    destruct (Re.match_here (a :: pre ++ Re.keyword ++ g ++ rest)) as [g' |] eqn:Hm.
    + apply match_here_occurs in Hm. apply Hleft in Hm. cbn in Hm. lia.
    + apply IH. intros pre' Hocc.
      apply (occurs_after_cons a) in Hocc. apply Hleft in Hocc. cbn in Hocc. lia.
Qed.


Lemma int_of_digits_snoc (g : str) (c : N) (v : Z) :
  decimal c = Some v -> int_of_digits (g ++ [c]) = 10 * int_of_digits g + v.
Proof.
  intro Hc. unfold int_of_digits. rewrite fold_left_app. cbn [fold_left].
  rewrite Hc. reflexivity.
Qed.

(** ** The elapsed time *)

(** With readings in range the conversion to [int] does not raise, and a later
    reading that is not below the earlier one gives a non-negative number. *)
Lemma elapsed_defined (t0 t1 : PyFloat.float) :
  reading_in_range t0 = true -> reading_in_range t1 = true ->
  exists z, elapsed_ms t0 t1 = Normal z /\ (PyFloat.leb t0 t1 = true -> 0 <= z).
Proof.
  unfold reading_in_range, elapsed_ms. intros H0 H1.
  apply andb_prop in H0 as [Hf0 Hb0]. apply andb_prop in H1 as [Hf1 Hb1].
  destruct (sub_sized 1000 t1 t0 ltac:(lia) ltac:(lia) Hf1 Hf0 Hb1 Hb0)
    as (s & Hs & Hsign).
  pose proof (mul_1000_sized s 1002 _ ltac:(lia) ltac:(lia) Hs) as Hm.
  destruct (to_int_sized s _ _ Hm) as (z & Hz & Hnn & Hzero).
  exists z. split; [exact Hz|]. intro Hle.
  destruct (Hsign Hle) as [-> | [s' Hs']]; [auto|].
  apply Z.eq_le_incl. symmetry. apply Hzero. rewrite Hs'.
  exists (xorb s' false). reflexivity.
Qed.

(** ** One call, step by step *)

Section Run.

Context {R : Type}.
Variables (input_text : Input) (model api_key : str) (env : @Env R) (w : World).

Lemma create_embedding_steps (z : Z) :
  elapsed_ms (perf_counter_at env (clock_calls w))
             (perf_counter_at env (S (clock_calls w))) = Normal z ->
  create_embedding input_text model api_key env w =
  let request_log ok code :=
    RequestLogWrite
      {| RequestLog.model_name := model; RequestLog.api_key := api_key;
         RequestLog.is_success := ok; RequestLog.status_code := code;
         RequestLog.latency_ms := z;
         RequestLog.request_time := datetime_now_value env |} in
  let error_log msg code :=
    ErrorLogWrite
      {| ErrorLog.gemini_key := api_key; ErrorLog.model_name := model;
         ErrorLog.error_type := py "openai-embedding";
         ErrorLog.error_log := msg; ErrorLog.error_code := code;
         ErrorLog.request_msg := build_request_msg_log input_text |} in
  let world_after lines writes :=
    {| clock_calls := S (S (clock_calls w));
       log_lines := log_lines w ++ lines; db := db w ++ writes |} in
  match embeddings_create env api_key (BASE_URL env) input_text model with
  | Normal r => (Normal r, world_after [] [request_log true (Some 200)])
  | Raised (APIStatusError c m as e) =>
      (Raised e,
       world_after
         [py "Error creating embedding (APIStatusError): "
            ++ py "OpenAI API error: " ++ m]
         [error_log (py "OpenAI API error: " ++ m) (Some c);
          request_log false (Some c)])
  | Raised (OtherException t as e) =>
      let status :=
        match parse_status_code t with Normal c => Some c | Raised _ => None end in
      (match parse_status_code t with Normal _ => Raised e | Raised e' => Raised e' end,
       world_after
         [py "Error creating embedding (Exception): "
            ++ py "Generic error: " ++ t]
         [error_log (py "Generic error: " ++ t) status;
          request_log false status])
  | Raised (NonException t as e) =>
      (Raised e, world_after [] [error_log (py "") None; request_log false None])
  end.
Proof.
  intro Hz.
  unfold create_embedding, try_finally, try_except, try_body, finally_clause.
  cbn -[elapsed_ms py build_request_msg_log parse_status_code].
  destruct (embeddings_create env api_key (BASE_URL env) input_text model)
    as [r | [c m | t | t]];
    cbn -[elapsed_ms py build_request_msg_log parse_status_code];
    try destruct (parse_status_code t);
    cbn -[elapsed_ms py build_request_msg_log parse_status_code];
    rewrite Hz;
    cbn -[elapsed_ms py build_request_msg_log parse_status_code];
    rewrite ?app_nil_r, <- ?app_assoc; reflexivity.
Qed.

End Run.

(** Runs the call in the goal, given that the clock is in range. *)
Ltac run_call Hclock z :=
  match goal with
  | |- context [create_embedding ?i ?m ?k ?env ?w] =>
      let Hz := fresh "Hz" in
      let Hnn := fresh "Hnn" in
      destruct (elapsed_defined (perf_counter_at env (clock_calls w))
                                (perf_counter_at env (S (clock_calls w)))
                                (Hclock _) (Hclock _)) as (z & Hz & Hnn);
      rewrite !(create_embedding_steps i m k env w z Hz)
  end.

Lemma example_clock_in_range (outcome : Completion (list Z)) :
  clock_in_range (Example.env outcome).
Proof. intros [| n]; reflexivity. Defined.

Lemma example_clock_monotonic (outcome : Completion (list Z)) :
  clock_monotonic (Example.env outcome).
Proof. intros [| n] [| m] H; try reflexivity. exfalso; lia. Defined.

(** * The claims *)

Section Claims.

Context {R : Type}.
Variables (input_text : Input) (model api_key : str) (env : @Env R) (w : World).

(** The completion of the call, the world it leaves, and what the provider
    answered. The statements on a whole call assume [clock_in_range]: the
    readings of [time.perf_counter] are finite floats, so that [int] at line 63
    has a value. *)
Notation "'result'" := (fst (create_embedding input_text model api_key env w))
  (only parsing).
Notation "'world''" := (snd (create_embedding input_text model api_key env w))
  (only parsing).
Notation "'provider'" :=
  (embeddings_create env api_key (BASE_URL env) input_text model) (only parsing).

(** C1. With a clock in range, every call, however the provider's call ends (result, structured
    error, generic error, or an exception outside [Exception]), hands exactly
    one entry to [add_request_log], and one entry to [add_error_log] exactly
    when it does not succeed, none otherwise; the call succeeds exactly when
    the provider's call does. *)
Theorem logs_written_on_every_path :
  clock_in_range env ->
  exists writes,
    db world' = db w ++ writes /\
    List.length (request_logs writes) = 1%nat /\
    List.length (error_logs writes) = (if succeeded result then 0 else 1)%nat /\
    succeeded result = succeeded provider.
Proof.
  intro Hclock. run_call Hclock z.
  destruct provider as [r | [c m | t | t]];
    try destruct (parse_status_code t); cbn [fst snd db succeeded];
    eexists; (split; [reflexivity|]); repeat split.
Qed.

(** C2. With a clock in range, when the provider's call succeeds, the call returns the provider's
    result as it is, hands one entry to [add_request_log], with
    [is_success=True] and [status_code=200], and none to [add_error_log]. *)
Theorem success_returns_result_and_logs_200 (r : R) :
  clock_in_range env ->
  provider = Normal r ->
  result = Normal r /\
  exists entry,
    db world' = db w ++ [RequestLogWrite entry] /\
    RequestLog.is_success entry = true /\
    RequestLog.status_code entry = Some 200.
Proof.
  intros Hclock Hp. run_call Hclock z. rewrite Hp. cbn [fst snd db].
  split; [reflexivity|]. eexists. split; [reflexivity|]. split; reflexivity.
Qed.

(** C3. With a clock in range, when the provider raises [APIStatusError] with status code [S] and
    message [M], the caller gets that error, with [S] and [M]; one entry goes
    to [add_error_log], with [error_code=S] and an [error_log] that contains
    [M]; then one entry goes to [add_request_log], with [is_success=False]
    and [status_code=S]. *)
Theorem structured_error_is_logged_and_raised (S : Z) (M : str) :
  clock_in_range env ->
  provider = Raised (APIStatusError S M) ->
  result = Raised (APIStatusError S M) /\
  exists err req,
    db world' = db w ++ [ErrorLogWrite err; RequestLogWrite req] /\
    ErrorLog.error_code err = Some S /\
    ErrorLog.error_log err = py "OpenAI API error: " ++ M /\
    contains M (ErrorLog.error_log err) /\
    RequestLog.is_success req = false /\
    RequestLog.status_code req = Some S.
Proof.
  intros Hclock Hp. run_call Hclock z. rewrite Hp. cbn [fst snd db].
  split; [reflexivity|]. do 2 eexists. split; [reflexivity|].
  cbn [ErrorLog.error_code ErrorLog.error_log RequestLog.is_success RequestLog.status_code].
  repeat split. exists (py "OpenAI API error: "), []. now rewrite app_nil_r.
Qed.

(** X12. With a clock in range, a failure of the provider's call reaches the
    caller as it was raised, with the entries of the error log and of the
    request log written by then, whenever [int] at line 57 returns: for a
    structured error, for an exception outside [Exception], and for a generic
    exception in whose text [re.search] finds no run of more than
    [int_max_str_digits] digits. *)
Theorem failure_reaches_caller_when_int_returns (e : PyExn) :
  clock_in_range env ->
  provider = Raised e ->
  (forall text g, e = OtherException text -> Re.search text = Some g ->
                  (List.length g <= int_max_str_digits)%nat) ->
  result = Raised e /\
  exists err req, db world' = db w ++ [ErrorLogWrite err; RequestLogWrite req].
Proof.
  intros Hclock Hp Hint. run_call Hclock z. rewrite Hp.
  destruct e as [c m | t | t]; cbn [fst snd db];
    try (split; [reflexivity|]; do 2 eexists; reflexivity).
  assert (Hparse : exists code, parse_status_code t = Normal code).
  { unfold parse_status_code. destruct (Re.search t) as [g |] eqn:Hs;
      [|eexists; reflexivity].
    unfold int_of_digit_run. specialize (Hint t g eq_refl Hs).
    destruct (Nat.ltb_spec int_max_str_digits (List.length g)); [lia|].
    eexists; reflexivity. }
  destruct Hparse as [code ->]. split; [reflexivity|]. do 2 eexists; reflexivity.
Qed.

(** C7. With a clock in range: on a failure the entry of the error log is written before the entry
    of the request log, and both are written when the exception reaches the
    caller; on success the entry of the request log is written when the call
    returns. Nothing else is written. *)
Theorem error_log_before_request_log :
  clock_in_range env ->
  match result with
  | Raised _ =>
      exists err req, db world' = db w ++ [ErrorLogWrite err; RequestLogWrite req]
  | Normal _ =>
      exists req, db world' = db w ++ [RequestLogWrite req]
  end.
Proof.
  intro Hclock. run_call Hclock z.
  destruct provider as [r | [c m | t | t]];
    try destruct (parse_status_code t); cbn [fst snd db];
    repeat eexists.
Qed.

(** C8, amended. With a clock in range, every entry the call hands to the sinks, the one of the
    request log and the one of the error log when there is one, carries the
    complete credential, unchanged, in its credential field. *)
Theorem credential_stored_in_full :
  clock_in_range env ->
  exists writes,
    db world' = db w ++ writes /\ writes <> [] /\
    forall wr, In wr writes -> credential_of wr = api_key.
Proof.
  intro Hclock. run_call Hclock z.
  destruct provider as [r | [c m | t | t]]; cbn [fst snd db];
    eexists; (split; [reflexivity|]); (split; [discriminate|]);
    intros wr Hin; cbn [In] in Hin; intuition (subst; reflexivity).
Qed.

(** C9. With a monotonic clock in range, the latency in the entry of the request log
    is the integer [int((end_time - start_time) * 1000)] of the two readings
    of the call, and it is not negative, however the call ends. *)
Theorem latency_is_non_negative :
  clock_in_range env ->
  clock_monotonic env ->
  exists before req,
    db world' = db w ++ before ++ [RequestLogWrite req] /\
    request_logs before = [] /\
    elapsed_ms (perf_counter_at env (clock_calls w))
               (perf_counter_at env (S (clock_calls w)))
      = Normal (RequestLog.latency_ms req) /\
    0 <= RequestLog.latency_ms req.
Proof.
  intros Hclock Hmono. run_call Hclock z.
  specialize (Hnn (Hmono _ _ (Nat.le_succ_diag_r _))).
  destruct provider as [r | [c m | t | t]]; cbn [fst snd db].
  - exists []. eexists. split; [reflexivity|]. split; [reflexivity|].
    cbn [RequestLog.latency_ms]. split; assumption.
  - eexists [_]. eexists. split; [reflexivity|]. split; [reflexivity|].
    cbn [RequestLog.latency_ms]. split; assumption.
  - eexists [_]. eexists. split; [reflexivity|]. split; [reflexivity|].
    cbn [RequestLog.latency_ms]. split; assumption.
  - eexists [_]. eexists. split; [reflexivity|]. split; [reflexivity|].
    cbn [RequestLog.latency_ms]. split; assumption.
Qed.

(** C10. With a clock in range, when the provider's call raises an exception that is not an
    [Exception], no [except] clause runs: the entry of the error log has an
    empty message and no status code, the entry of the request log has
    [is_success=False] and no status code, and the exception goes on to the
    caller. *)
Theorem base_exception_is_logged_blank (text : str) :
  clock_in_range env ->
  provider = Raised (NonException text) ->
  result = Raised (NonException text) /\
  exists err req,
    db world' = db w ++ [ErrorLogWrite err; RequestLogWrite req] /\
    ErrorLog.error_log err = py "" /\
    ErrorLog.error_code err = None /\
    RequestLog.is_success req = false /\
    RequestLog.status_code req = None.
Proof.
  intros Hclock Hp. run_call Hclock z. rewrite Hp. cbn [fst snd db].
  split; [reflexivity|]. do 2 eexists. repeat split.
Qed.

(** C5, amended. With a clock in range, when the provider's call raises a
    generic exception, both entries carry one status code; it is the number
    written by the longest run of digits after the leftmost ["status code "]
    of the exception's text that a digit follows, when that run has at most
    [int_max_str_digits] digits; so it is 503 when that leftmost occurrence
    reads ["status code 503"] and no digit follows it; and it is 500 when no
    ["status code "] of the text is followed by a digit. *)
Theorem generic_error_status_code (text : str) :
  clock_in_range env ->
  provider = Raised (OtherException text) ->
  exists err req,
    db world' = db w ++ [ErrorLogWrite err; RequestLogWrite req] /\
    RequestLog.status_code req = ErrorLog.error_code err /\
    (forall pre g rest,
        text = pre ++ Re.keyword ++ g ++ rest ->
        g <> [] -> Forall (fun c => is_digit c = true) g -> no_digit_ahead rest ->
        (forall pre', occurs_after text pre' ->
                      (List.length pre <= List.length pre')%nat) ->
        (List.length g <= int_max_str_digits)%nat ->
        ErrorLog.error_code err = Some (int_of_digits g)) /\
    (forall pre rest,
        text = pre ++ py "status code 503" ++ rest ->
        no_digit_ahead rest ->
        (forall pre', occurs_after text pre' ->
                      (List.length pre <= List.length pre')%nat) ->
        ErrorLog.error_code err = Some 503) /\
    ((forall pre, ~ occurs_after text pre) -> ErrorLog.error_code err = Some 500).
Proof.
  intros Hclock Hp. run_call Hclock z. rewrite Hp. cbn [fst snd db].
  assert (Hleft : forall pre g rest,
             text = pre ++ Re.keyword ++ g ++ rest ->
             g <> [] -> Forall (fun c => is_digit c = true) g -> no_digit_ahead rest ->
             (forall pre', occurs_after text pre' ->
                           (List.length pre <= List.length pre')%nat) ->
             (List.length g <= int_max_str_digits)%nat ->
             parse_status_code text = Normal (int_of_digits g)).
  { intros pre g rest -> Hne Hg Hrest Hleft Hlen. unfold parse_status_code.
    rewrite (search_leftmost pre g rest Hne Hg Hrest Hleft).
    unfold int_of_digit_run.
    destruct (Nat.ltb_spec int_max_str_digits (List.length g)); [lia | reflexivity]. }
  do 2 eexists. split; [reflexivity|].
  cbn [ErrorLog.error_code RequestLog.status_code].
  split; [reflexivity|]. split; [|split].
  - intros pre g rest Htext Hne Hg Hrest Hfirst Hlen.
    now rewrite (Hleft pre g rest Htext Hne Hg Hrest Hfirst Hlen).
  - intros pre rest Htext Hrest Hfirst.
    rewrite (Hleft pre (py "503") rest); try assumption.
    + reflexivity.
    + discriminate.
    + repeat constructor.
    + unfold int_max_str_digits. cbn. lia.
  - intro Hno. unfold parse_status_code. now rewrite (search_none text Hno).
Qed.

End Claims.

(** C4. The claim fails on the code for a generic exception whose text has a
    run of more than [int_max_str_digits] digits after ["status code "]:
    [int] raises at line 57, inside the [except] clause and before its
    [raise e], so the caller gets the [ValueError] of [int] in place of the
    exception of the provider's call, and both entries are written without a
    status code. Here the text is ["status code "] and 4301 times ["1"]. *)
Theorem long_digit_run_replaces_the_failure :
  fst (Example.call Example.hello (Raised (OtherException Cases.long_run)))
    = Raised (OtherException
                (py "Exceeds the limit (4300 digits) for integer string conversion: value has 4301 digits; use sys.set_int_max_str_digits() to increase the limit")) /\
  Raised (OtherException Cases.long_run)
    <> fst (Example.call Example.hello (Raised (OtherException Cases.long_run))) /\
  map status_of
      (Example.written Example.hello (Raised (OtherException Cases.long_run)))
    = [None; None].
Proof.
  assert (H : fst (Example.call Example.hello
                     (Raised (OtherException Cases.long_run)))
              = Raised (OtherException
                 (py "Exceeds the limit (4300 digits) for integer string conversion: value has 4301 digits; use sys.set_int_max_str_digits() to increase the limit")))
    by (vm_compute; reflexivity).
  split; [exact H|]. split; [|vm_compute; reflexivity].
  rewrite H. intro Heq.
  apply (f_equal (fun c => match c with
                           | Raised (OtherException t) => List.length t
                           | _ => 0%nat
                           end)) in Heq.
  vm_compute in Heq. discriminate.
Qed.

(** C6. The preview of a list has one item for each of its first five
    elements, in order, each cut to 100 characters with ["..."] added when it
    was longer, and after them the item ["..."] exactly when the list has more
    than five elements; the preview of a string is the string when it has at
    most 1000 characters, and else its first 1000 characters and ["..."]. *)
Theorem input_preview_shape (input_text : Input) :
  match input_text, input_truncated (build_request_msg_log input_text) with
  | InputList l, TruncatedList items =>
      List.length items
        = (Nat.min 5 (List.length l) + (if (5 <? List.length l)%nat then 1 else 0))%nat /\
      (forall i, (i < Nat.min 5 (List.length l))%nat ->
         exists element item,
           nth_error l i = Some element /\ nth_error items i = Some item /\
           capped 100 element item) /\
      ((5 < List.length l)%nat -> nth_error items 5 = Some (py "..."))
  | InputStr s, TruncatedStr short => capped 1000 s short
  | _, _ => False
  end.
Proof.
  assert (Hcap : forall n s, capped n s (truncate n s)).
  { intros n s. unfold capped, truncate.
    destruct (Nat.ltb_spec n (List.length s)); split; intro; try reflexivity; lia. }
  destruct input_text as [s | l]; cbn [build_request_msg_log input_truncated];
    [apply Hcap|].
  assert (Hlen : List.length (map (truncate 100) (firstn 5 l)) = Nat.min 5 (List.length l))
    by (rewrite length_map; apply length_firstn).
  assert (Hitems : forall i, (i < Nat.min 5 (List.length l))%nat ->
            exists element,
              nth_error l i = Some element /\
              nth_error (map (truncate 100) (firstn 5 l)) i = Some (truncate 100 element)).
  { intros i Hi. destruct (nth_error l i) as [element |] eqn:Hnth.
    - exists element. split; [reflexivity|].
      rewrite nth_error_map, nth_error_firstn.
      destruct (Nat.ltb_spec i 5); [|lia]. now rewrite Hnth.
    - apply nth_error_None in Hnth. lia. }
  destruct (Nat.ltb_spec 5 (List.length l)) as [Hlong | Hshort]; repeat split.
  - rewrite length_app, Hlen. reflexivity.
  - intros i Hi. destruct (Hitems i Hi) as (element & Hl & Hm).
    exists element, (truncate 100 element). repeat split; try apply Hcap; [assumption|].
    rewrite nth_error_app1 by lia. assumption.
  - intros _. rewrite nth_error_app2 by lia. rewrite Hlen.
    replace (5 - Nat.min 5 (List.length l))%nat with 0%nat by lia. reflexivity.
  - rewrite Hlen. lia.
  - intros i Hi. destruct (Hitems i Hi) as (element & Hl & Hm).
    exists element, (truncate 100 element). repeat split; try apply Hcap; assumption.
  - lia.
Qed.

(** ** The claims on the example call *)

Lemma logs_written_on_every_path_witness :
  clock_in_range (Example.env (Raised Example.connection_error)) /\
  exists writes,
    db (snd (Example.call Example.hello (Raised Example.connection_error)))
      = db Example.world ++ writes /\
    List.length (request_logs writes) = 1%nat /\
    List.length (error_logs writes)
      = (if succeeded (fst (Example.call Example.hello
                              (Raised Example.connection_error)))
         then 0 else 1)%nat /\
    succeeded (fst (Example.call Example.hello (Raised Example.connection_error)))
      = succeeded (@Raised (list Z) Example.connection_error).
Proof.
  split; [apply example_clock_in_range|].
  exact (logs_written_on_every_path Example.hello Example.model Example.key
           (Example.env (Raised Example.connection_error)) Example.world
           (example_clock_in_range _)).
Defined.

Lemma success_returns_result_and_logs_200_witness :
  clock_in_range (Example.env (Normal [1; 2])) /\
  fst (Example.call (InputList [py "a"; py "b"]) (Normal [1; 2])) = Normal [1; 2] /\
  exists entry,
    db (snd (Example.call (InputList [py "a"; py "b"]) (Normal [1; 2])))
      = db Example.world ++ [RequestLogWrite entry] /\
    RequestLog.is_success entry = true /\
    RequestLog.status_code entry = Some 200.
Proof.
  split; [apply example_clock_in_range|].
  exact (success_returns_result_and_logs_200 (InputList [py "a"; py "b"])
           Example.model Example.key (Example.env (Normal [1; 2])) Example.world
           [1; 2] (example_clock_in_range _) eq_refl).
Defined.

Lemma structured_error_is_logged_and_raised_witness :
  clock_in_range (Example.env (Raised Example.rate_limited)) /\
  fst (Example.call Example.hello (Raised Example.rate_limited))
    = Raised (APIStatusError 429 (py "rate limited")) /\
  exists err req,
    db (snd (Example.call Example.hello (Raised Example.rate_limited)))
      = db Example.world ++ [ErrorLogWrite err; RequestLogWrite req] /\
    ErrorLog.error_code err = Some 429 /\
    ErrorLog.error_log err = py "OpenAI API error: " ++ py "rate limited" /\
    contains (py "rate limited") (ErrorLog.error_log err) /\
    RequestLog.is_success req = false /\
    RequestLog.status_code req = Some 429.
Proof.
  split; [apply example_clock_in_range|].
  exact (structured_error_is_logged_and_raised Example.hello Example.model
           Example.key (Example.env (Raised Example.rate_limited)) Example.world
           429 (py "rate limited") (example_clock_in_range _) eq_refl).
Defined.

Lemma failure_reaches_caller_when_int_returns_witness :
  clock_in_range (Example.env (Raised (OtherException Example.unavailable))) /\
  (forall text g,
     OtherException Example.unavailable = OtherException text ->
     Re.search text = Some g -> (List.length g <= int_max_str_digits)%nat) /\
  fst (Example.call Example.hello (Raised (OtherException Example.unavailable)))
    = Raised (OtherException Example.unavailable) /\
  exists err req,
    db (snd (Example.call Example.hello
               (Raised (OtherException Example.unavailable))))
      = db Example.world ++ [ErrorLogWrite err; RequestLogWrite req].
Proof.
  assert (Hint : forall text g,
             OtherException Example.unavailable = OtherException text ->
             Re.search text = Some g -> (List.length g <= int_max_str_digits)%nat).
  { intros text g Heq Hs. injection Heq as <-. vm_compute in Hs.
    injection Hs as <-. apply Nat.leb_le. reflexivity. }
  split; [apply example_clock_in_range|]. split; [exact Hint|].
  exact (failure_reaches_caller_when_int_returns Example.hello Example.model
           Example.key (Example.env (Raised (OtherException Example.unavailable)))
           Example.world (OtherException Example.unavailable)
           (example_clock_in_range _) eq_refl Hint).
Defined.

Lemma generic_error_status_code_witness :
  clock_in_range (Example.env (Raised (OtherException Example.unavailable))) /\
  exists err req,
    db (snd (Example.call Example.hello
               (Raised (OtherException Example.unavailable))))
      = db Example.world ++ [ErrorLogWrite err; RequestLogWrite req] /\
    RequestLog.status_code req = ErrorLog.error_code err /\
    (forall pre g rest,
        Example.unavailable = pre ++ Re.keyword ++ g ++ rest ->
        g <> [] -> Forall (fun c => is_digit c = true) g -> no_digit_ahead rest ->
        (forall pre', occurs_after Example.unavailable pre' ->
                      (List.length pre <= List.length pre')%nat) ->
        (List.length g <= int_max_str_digits)%nat ->
        ErrorLog.error_code err = Some (int_of_digits g)) /\
    (forall pre rest,
        Example.unavailable = pre ++ py "status code 503" ++ rest ->
        no_digit_ahead rest ->
        (forall pre', occurs_after Example.unavailable pre' ->
                      (List.length pre <= List.length pre')%nat) ->
        ErrorLog.error_code err = Some 503) /\
    ((forall pre, ~ occurs_after Example.unavailable pre) ->
     ErrorLog.error_code err = Some 500).
Proof.
  split; [apply example_clock_in_range|].
  exact (generic_error_status_code Example.hello Example.model Example.key
           (Example.env (Raised (OtherException Example.unavailable)))
           Example.world Example.unavailable (example_clock_in_range _) eq_refl).
Defined.

Lemma input_preview_shape_witness :
  match input_truncated (build_request_msg_log (InputList Example.seven)) with
  | TruncatedList items =>
      List.length items = 6%nat /\
      (forall i, (i < 5)%nat ->
         exists element item,
           nth_error Example.seven i = Some element /\
           nth_error items i = Some item /\ capped 100 element item) /\
      ((5 < 7)%nat -> nth_error items 5 = Some (py "..."))
  | TruncatedStr _ => False
  end.
Proof. exact (input_preview_shape (InputList Example.seven)). Defined.

Lemma error_log_before_request_log_witness :
  clock_in_range (Example.env (Raised Example.rate_limited)) /\
  match fst (Example.call Example.hello (Raised Example.rate_limited)) with
  | Raised _ =>
      exists err req,
        db (snd (Example.call Example.hello (Raised Example.rate_limited)))
          = db Example.world ++ [ErrorLogWrite err; RequestLogWrite req]
  | Normal _ =>
      exists req,
        db (snd (Example.call Example.hello (Raised Example.rate_limited)))
          = db Example.world ++ [RequestLogWrite req]
  end.
Proof.
  split; [apply example_clock_in_range|].
  exact (error_log_before_request_log Example.hello Example.model Example.key
           (Example.env (Raised Example.rate_limited)) Example.world
           (example_clock_in_range _)).
Defined.

Lemma credential_stored_in_full_witness :
  clock_in_range (Example.env (Normal [1; 2])) /\
  exists writes,
    db (snd (Example.call Example.hello (Normal [1; 2])))
      = db Example.world ++ writes /\
    writes <> [] /\
    forall wr, In wr writes -> credential_of wr = py "k1".
Proof.
  split; [apply example_clock_in_range|].
  exact (credential_stored_in_full Example.hello Example.model Example.key
           (Example.env (Normal [1; 2])) Example.world (example_clock_in_range _)).
Defined.

Lemma latency_is_non_negative_witness :
  clock_in_range (Example.env (Normal [1; 2])) /\
  clock_monotonic (Example.env (Normal [1; 2])) /\
  exists before req,
    db (snd (Example.call Example.hello (Normal [1; 2])))
      = db Example.world ++ before ++ [RequestLogWrite req] /\
    request_logs before = [] /\
    elapsed_ms (Example.clock 0) (Example.clock 1)
      = Normal (RequestLog.latency_ms req) /\
    0 <= RequestLog.latency_ms req.
Proof.
  split; [apply example_clock_in_range|].
  split; [apply example_clock_monotonic|].
  exact (latency_is_non_negative Example.hello Example.model Example.key
           (Example.env (Normal [1; 2])) Example.world
           (example_clock_in_range _) (example_clock_monotonic _)).
Defined.

Lemma base_exception_is_logged_blank_witness :
  clock_in_range (Example.env (Raised (NonException (py "")))) /\
  fst (Example.call Example.hello (Raised (NonException (py ""))))
    = Raised (NonException (py "")) /\
  exists err req,
    db (snd (Example.call Example.hello (Raised (NonException (py "")))))
      = db Example.world ++ [ErrorLogWrite err; RequestLogWrite req] /\
    ErrorLog.error_log err = py "" /\
    ErrorLog.error_code err = None /\
    RequestLog.is_success req = false /\
    RequestLog.status_code req = None.
Proof.
  split; [apply example_clock_in_range|].
  exact (base_exception_is_logged_blank Example.hello Example.model Example.key
           (Example.env (Raised (NonException (py "")))) Example.world (py "")
           (example_clock_in_range _) eq_refl).
Defined.

(** ** Where the claims as written fail *)

(** C5 as written: the text ["status code 5031"] contains
    ["status code 503"], and both entries get the status code 5031. *)
Lemma any_occurrence_gives_503_counterexample :
  map status_of
      (Example.written Example.hello (Raised (OtherException (py "status code 5031"))))
    = [Some 5031; Some 5031] /\
  ~ any_occurrence_gives_503 Example.hello Example.model Example.key
      (Example.env (Raised (OtherException (py "status code 5031"))))
      Example.world (py "status code 5031").
Proof.
  split; [reflexivity|]. intro H.
  assert (Hc : contains (py "status code 503") (py "status code 5031"))
    by (exists [], (py "1"); reflexivity).
  specialize (H eq_refl Hc).
  assert (Hw : exists wr rest,
             written_by Example.hello Example.model Example.key
               (Example.env (Raised (OtherException (py "status code 5031"))))
               Example.world = wr :: rest /\ status_of wr = Some 5031)
    by (do 2 eexists; split; reflexivity).
  destruct Hw as (wr & rest & Hw & Hs).
  specialize (H wr). rewrite Hw in H. specialize (H (or_introl eq_refl)).
  rewrite Hs in H. discriminate.
Qed.

(** C8 as written: on the example call the entry of the request log holds
    the credential ["k1"] in full, in its field [api_key]. *)
Lemma credential_never_in_full_counterexample :
  map credential_of (Example.written Example.hello (Normal [1; 2])) = [py "k1"] /\
  ~ credential_never_in_full Example.hello Example.model Example.key
      (Example.env (Normal [1; 2])) Example.world.
Proof.
  split; [reflexivity|]. intro H.
  assert (Hw : exists req,
             written_by Example.hello Example.model Example.key
               (Example.env (Normal [1; 2])) Example.world
               = [RequestLogWrite req] /\
             RequestLog.api_key req = Example.key)
    by (eexists; split; reflexivity).
  destruct Hw as (req & Hw & Hk).
  apply (H (RequestLogWrite req)); [rewrite Hw; left; reflexivity|].
  exists (RequestLog.api_key req). split; [cbn; auto|].
  exists [], []. rewrite Hk, app_nil_r. reflexivity.
Qed.

(** * Further properties *)

(** ** The search for the status code, continued *)

Lemma digit_run_split (r : str) :
  exists rest,
    r = Re.digit_run r ++ rest /\
    Forall (fun c => is_digit c = true) (Re.digit_run r) /\ no_digit_ahead rest.
Proof.
  induction r as [| c r (rest & Hr & Hd & Hn)]; cbn [Re.digit_run].
  - exists []. repeat split. constructor.
  - destruct (is_digit c) eqn:Hc.
    + exists rest. cbn [app]. repeat split; [congruence | now constructor | assumption].
    + exists (c :: r). repeat split; [constructor | exact Hc].
Qed.

Lemma match_here_split (s g : str) :
  Re.match_here s = Some g ->
  exists rest,
    s = Re.keyword ++ g ++ rest /\ g <> [] /\
    Forall (fun c => is_digit c = true) g /\ no_digit_ahead rest.
Proof.
  unfold Re.match_here.
  destruct (Re.strip_prefix Re.keyword s) as [r |] eqn:Hs; [|discriminate].
  apply strip_prefix_spec in Hs. destruct (digit_run_split r) as (rest & Hr & Hd & Hn).
  destruct (Re.digit_run r) as [| c g'] eqn:Hg; [discriminate|].
  intro H. injection H as <-. exists rest. repeat split; try assumption.
  - rewrite Hs. f_equal. exact Hr.
  - discriminate.
Qed.

Lemma occurs_here_matches (s : str) :
  occurs_after s [] -> Re.match_here s <> None.
Proof.
  intros (d & rest & -> & Hd). unfold Re.match_here. cbn [app].
  rewrite (proj2 (strip_prefix_spec Re.keyword _ (d :: rest)) eq_refl).
  cbn [Re.digit_run]. rewrite Hd. discriminate.
Qed.

Lemma occurs_after_tail (a b : N) (t pre : str) :
  occurs_after (a :: t) (b :: pre) -> occurs_after t pre.
Proof.
  intros (d & rest & H & Hd). exists d, rest. split; [|exact Hd].
  cbn [app] in H. congruence.
Qed.

Lemma search_split (text g : str) :
  Re.search text = Some g ->
  exists pre rest,
    text = pre ++ Re.keyword ++ g ++ rest /\
    g <> [] /\ Forall (fun c => is_digit c = true) g /\ no_digit_ahead rest /\
    forall pre', occurs_after text pre' ->
                 (List.length pre <= List.length pre')%nat.
Proof.
  induction text as [| a t IH]; cbn [Re.search].
  - destruct (Re.match_here []) as [g' |] eqn:Hm; [|discriminate].
    intro H. injection H as ->.
    destruct (match_here_split _ _ Hm) as (rest & Ht & Hne & Hd & Hn).
    exists [], rest. repeat split; try assumption. intros; cbn; lia.
  - destruct (Re.match_here (a :: t)) as [g' |] eqn:Hm.
    + intro H. injection H as ->.
      destruct (match_here_split _ _ Hm) as (rest & Ht & Hne & Hd & Hn).
      exists [], rest. repeat split; try assumption. intros; cbn; lia.
    + intro Hs. destruct (IH Hs) as (pre & rest & Ht & Hne & Hd & Hn & Hleft).
      exists (a :: pre), rest. repeat split; try assumption.
      * cbn [app]. now rewrite Ht.
      * intros [| b pre'] Hocc.
        -- exfalso. exact (occurs_here_matches _ Hocc Hm).
        -- apply occurs_after_tail in Hocc. apply Hleft in Hocc. cbn. lia.
Qed.

(** X1. What [re.search] finds is sound: when it finds the group [g], the
    text reads [pre], ["status code "], [g], [rest], where [g] is a run of
    one or more digits that [rest] does not continue, and no
    ["status code <digit>"] begins before the end of [pre]. *)
Theorem search_finds_leftmost_longest (text g : str) :
  Re.search text = Some g ->
  exists pre rest,
    text = pre ++ Re.keyword ++ g ++ rest /\
    g <> [] /\ Forall (fun c => is_digit c = true) g /\ no_digit_ahead rest /\
    forall pre', occurs_after text pre' ->
                 (List.length pre <= List.length pre')%nat.
Proof. exact (search_split text g). Qed.

Lemma search_finds_leftmost_longest_witness :
  Re.search Example.unavailable = Some (py "503") /\
  exists pre rest,
    Example.unavailable = pre ++ Re.keyword ++ py "503" ++ rest /\
    py "503" <> [] /\ Forall (fun c => is_digit c = true) (py "503") /\
    no_digit_ahead rest /\
    forall pre', occurs_after Example.unavailable pre' ->
                 (List.length pre <= List.length pre')%nat.
Proof.
  split; [reflexivity|].
  exact (search_finds_leftmost_longest Example.unavailable (py "503") eq_refl).
Defined.

Lemma decimal_nonneg (c : N) (v : Z) : decimal c = Some v -> 0 <= v.
Proof.
  unfold decimal. destruct (find _ decimal_zeros); [|discriminate].
  intro H. injection H as <-. lia.
Qed.

Lemma int_of_digits_nonneg (g : str) : 0 <= int_of_digits g.
Proof.
  unfold int_of_digits.
  assert (H : forall acc, 0 <= acc ->
            0 <= fold_left (fun acc c => 10 * acc +
                     match decimal c with Some v => v | None => 0 end) g acc).
  { induction g as [| c g IH]; intros acc Hacc; cbn [fold_left]; [assumption|].
    apply IH. destruct (decimal c) as [v |] eqn:Hc; [|lia].
    pose proof (decimal_nonneg c v Hc). lia. }
  apply H. lia.
Qed.

Lemma parse_status_code_nonneg (text : str) (code : Z) :
  parse_status_code text = Normal code -> 0 <= code.
Proof.
  unfold parse_status_code, int_of_digit_run. destruct (Re.search text) as [g |].
  - destruct (int_max_str_digits <? List.length g)%nat; [discriminate|].
    intro H. injection H as <-. apply int_of_digits_nonneg.
  - intro H. injection H as <-. lia.
Qed.

Lemma search_some_occurs (text g : str) :
  Re.search text = Some g -> exists pre, occurs_after text pre.
Proof.
  intro Hs. destruct (search_split text g Hs) as (pre & rest & Ht & Hne & Hd & _).
  exists pre. destruct g as [| d g]; [contradiction|].
  exists d, (g ++ rest). split; [exact Ht|]. now inversion Hd.
Qed.

(** X2. The status code recovered from the text of a generic exception is
    never negative, and it is other than 500 only when the text has a
    ["status code "] followed by a digit; so has the text when [int] raises
    and no status code is recovered. *)
Theorem parsed_status_code_range (text : str) :
  match parse_status_code text with
  | Normal code =>
      0 <= code /\ (code <> 500 -> exists pre, occurs_after text pre)
  | Raised _ => exists pre, occurs_after text pre
  end.
Proof.
  destruct (parse_status_code text) as [code | e] eqn:Hp.
  - split; [exact (parse_status_code_nonneg text code Hp)|]. intro Hne.
    unfold parse_status_code in Hp. destruct (Re.search text) as [g |] eqn:Hs.
    + exact (search_some_occurs text g Hs).
    + injection Hp as <-. contradiction.
  - unfold parse_status_code in Hp. destruct (Re.search text) as [g |] eqn:Hs.
    + exact (search_some_occurs text g Hs).
    + discriminate.
Qed.

(** ** The preview, continued *)

Lemma truncate_length (n : nat) (s : str) :
  List.length (truncate n s)
    = if (n <? List.length s)%nat then (n + 3)%nat else List.length s.
Proof.
  unfold truncate. destruct (Nat.ltb_spec n (List.length s)); [|reflexivity].
  rewrite length_app, length_firstn. cbn. lia.
Qed.

(** X3. The preview is bounded whatever the input: for a list, at most six
    items of at most 103 characters each; for a string, the length of the
    string when that is at most 1000, and 1003 otherwise (so that the preview
    of a string of 1001 or 1002 characters is longer than the string). *)
Theorem input_preview_is_bounded (input_text : Input) :
  match input_text, input_truncated (build_request_msg_log input_text) with
  | InputList _, TruncatedList items =>
      (List.length items <= 6)%nat /\
      Forall (fun item => (List.length item <= 103)%nat) items
  | InputStr s, TruncatedStr short =>
      List.length short
        = if (1000 <? List.length s)%nat then 1003%nat else List.length s
  | _, _ => False
  end.
Proof.
  destruct input_text as [s | l]; cbn [build_request_msg_log input_truncated].
  - apply truncate_length.
  - assert (Hitems : Forall (fun item => (List.length item <= 103)%nat)
                            (map (truncate 100) (firstn 5 l))).
    { apply Forall_map, Forall_forall. intros s _. rewrite truncate_length.
      destruct (Nat.ltb_spec 100 (List.length s)); lia. }
    assert (Hlen : (List.length (map (truncate 100) (firstn 5 l)) <= 5)%nat)
      by (rewrite length_map, length_firstn; lia).
    destruct (5 <? List.length l)%nat; split; try assumption; try lia.
    + rewrite length_app. change (List.length [py "..."]) with 1%nat. lia.
    + apply Forall_app. split; [assumption|]. repeat constructor.
Qed.

(** X4. An input within the limits is previewed as it is: a string of at
    most 1000 characters, and a list of at most five strings of at most 100
    characters each, the empty string and the empty list among them. *)
Theorem short_input_previewed_verbatim (input_text : Input) :
  within_limits input_text ->
  input_truncated (build_request_msg_log input_text) = verbatim input_text.
Proof.
  destruct input_text as [s | l]; cbn [within_limits build_request_msg_log
                                       input_truncated verbatim].
  - intro H. unfold truncate. destruct (Nat.ltb_spec 1000 (List.length s)); [lia|].
    reflexivity.
  - intros [Hlen Hitems].
    destruct (Nat.ltb_spec 5 (List.length l)); [lia|].
    rewrite firstn_all2 by assumption. f_equal. clear Hlen H.
    induction Hitems as [| s l Hs Hl IH]; [reflexivity|].
    cbn [map]. rewrite IH. f_equal.
    unfold truncate. destruct (Nat.ltb_spec 100 (List.length s)); [lia | reflexivity].
Qed.

Lemma short_input_previewed_verbatim_witness :
  within_limits (InputList [py "a"; py ""; py "b"]) /\
  input_truncated (build_request_msg_log (InputList [py "a"; py ""; py "b"]))
    = TruncatedList [py "a"; py ""; py "b"].
Proof.
  assert (H : within_limits (InputList [py "a"; py ""; py "b"])).
  { split; [cbn; lia|]. repeat constructor; cbn; lia. }
  split; [exact H|].
  exact (short_input_previewed_verbatim (InputList [py "a"; py ""; py "b"]) H).
Defined.

(** ** The elapsed time, continued *)

(** X5. Two equal finite readings give a latency of 0 ms. *)
Theorem elapsed_ms_of_equal_readings (t : PyFloat.float) :
  PyFloat.is_finite t = true -> elapsed_ms t t = Normal 0.
Proof.
  unfold elapsed_ms. destruct t as [s | s | | s m e]; try discriminate; intros _.
  - destruct s; reflexivity.
  - unfold PyFloat.sub, SFsub. rewrite Z.sub_diag. reflexivity.
Qed.

Lemma elapsed_ms_of_equal_readings_witness :
  PyFloat.is_finite (Example.clock 1) = true /\
  elapsed_ms (Example.clock 1) (Example.clock 1) = Normal 0.
Proof.
  split; [reflexivity|].
  exact (elapsed_ms_of_equal_readings (Example.clock 1) eq_refl).
Defined.

Lemma sub_sized_back (K : Z) (x y : PyFloat.float) :
  -1021 <= K -> K <= 1021 ->
  PyFloat.is_finite x = true -> PyFloat.is_finite y = true ->
  PyFloat.below_pow2 K x = true -> PyFloat.below_pow2 K y = true ->
  PyFloat.leb x y = true ->
  exists s, sized s (K + 2) (PyFloat.sub x y) /\
            (s = true \/ exists s', PyFloat.sub x y = S754_zero s').
Proof.
  intros HK HK' Hfx Hfy Hbx Hby Hle.
  destruct x as [sx | sx | | sx mx ex]; try discriminate;
  destruct y as [sy | sy | | sy my ey]; try discriminate.
  - exists (match sx, sy with true, false => true | _, _ => false end).
    split; [left; destruct sx, sy; reflexivity|].
    right. destruct sx, sy; eexists; reflexivity.
  - destruct (finite_inv K sy my ey HK Hfy Hby) as (_ & Hd & He).
    exists (negb sy). split.
    + right. exists my, ey. repeat split; [lia | lia].
    + left. destruct sy; [discriminate | reflexivity].
  - destruct (finite_inv K sx mx ex HK Hfx Hbx) as (_ & Hd & He).
    exists sx. split.
    + right. exists mx, ex. repeat split; [lia | lia].
    + left. destruct sx; [reflexivity | discriminate].
  - destruct (finite_inv K sx mx ex HK Hfx Hbx) as (Hcx & Hdx & Hex).
    destruct (finite_inv K sy my ey HK Hfy Hby) as (Hcy & Hdy & Hey).
    unfold PyFloat.sub, SFsub.
    destruct (shl_align_spec mx ex (Z.min ex ey)) as [_ HX].
    destruct (shl_align_spec my ey (Z.min ex ey)) as [_ HY].
    replace (Z.min ex (Z.min ex ey)) with (Z.min ex ey) in HX by lia.
    replace (Z.min ey (Z.min ex ey)) with (Z.min ex ey) in HY by lia.
    pose proof (Zdigits2_mul_pow2 (Zpos mx) (ex - Z.min ex ey) ltac:(lia) ltac:(lia)) as HdX.
    pose proof (Zdigits2_mul_pow2 (Zpos my) (ey - Z.min ex ey) ltac:(lia) ltac:(lia)) as HdY.
    rewrite <- HX in HdX. rewrite <- HY in HdY.
    change (Zdigits2 (Zpos mx)) with (Zpos (digits2_pos mx)) in HdX.
    change (Zdigits2 (Zpos my)) with (Zpos (digits2_pos my)) in HdY.
    set (X := Zpos (fst (shl_align mx ex (Z.min ex ey)))) in *.
    set (Y := Zpos (fst (shl_align my ey (Z.min ex ey)))) in *.
    set (d := cond_Zopp sx X - cond_Zopp sy Y).
    assert (HXpos : 0 < X) by (unfold X; lia).
    assert (HYpos : 0 < Y) by (unfold Y; lia).
    assert (Habs : Z.abs d <= X + Y) by (unfold d; destruct sx, sy; cbn [cond_Zopp]; lia).
    assert (Hdd : Zdigits2 (Z.abs d) + Z.min ex ey <= K + 1).
    { pose proof (Zdigits2_mono (Z.abs d) (X + Y) ltac:(lia)).
      pose proof (Zdigits2_add X Y ltac:(lia) ltac:(lia)). lia. }
    assert (Hneg : d <= 0).
    { unfold PyFloat.leb, SFleb, SFcompare in Hle.
      change (Pos.compare_cont Eq mx my) with (mx ?= my)%positive in Hle.
      unfold d. destruct sx, sy; cbn [cond_Zopp]; [| lia | discriminate |].
      - destruct (Z.compare_spec ex ey) as [Heq | Hlt | Hgt]; [| discriminate |].
        + subst ey. rewrite Z.min_id, Z.sub_diag, Z.mul_1_r in HX, HY.
          destruct (Pos.compare_spec mx my) as [Hc | Hc | Hc]; [| discriminate |]; lia.
        + pose proof (canonical_lt my mx ey ex Hcy Hcx Hgt) as Hlt.
          replace (Z.min ex ey) with ey in HX, HY by lia.
          rewrite Z.sub_diag, Z.mul_1_r in HY. lia.
      - destruct (Z.compare_spec ex ey) as [Heq | Hlt | Hgt]; [| | discriminate].
        + subst ey. rewrite Z.min_id, Z.sub_diag, Z.mul_1_r in HX, HY.
          destruct (Pos.compare_spec mx my) as [Hc | Hc | Hc]; [| | discriminate]; lia.
        + pose proof (canonical_lt mx my ex ey Hcx Hcy Hlt) as Hlt'.
          replace (Z.min ex ey) with ex in HX, HY by lia.
          rewrite Z.sub_diag, Z.mul_1_r in HX. lia. }
    exists (d <? 0). split.
    + replace (K + 2) with (K + 1 + 1) by lia.
      apply (binary_normalize_bound d (Z.min ex ey) (K + 1)); lia.
    + destruct (Z.eq_dec d 0) as [Hz | Hnz].
      * right. rewrite Hz. eexists; reflexivity.
      * left. apply Z.ltb_lt. lia.
Qed.

(** X6. The latency is not clamped: when the second reading of the clock is
    not above the first, the latency is an integer that is not positive. *)
Theorem elapsed_ms_of_a_clock_stepping_back (t0 t1 : PyFloat.float) :
  reading_in_range t0 = true -> reading_in_range t1 = true ->
  PyFloat.leb t1 t0 = true ->
  exists z, elapsed_ms t0 t1 = Normal z /\ z <= 0.
Proof.
  unfold reading_in_range, elapsed_ms. intros H0 H1 Hle.
  apply andb_prop in H0 as [Hf0 Hb0]. apply andb_prop in H1 as [Hf1 Hb1].
  destruct (sub_sized_back 1000 t1 t0 ltac:(lia) ltac:(lia) Hf1 Hf0 Hb1 Hb0 Hle)
    as (s & Hs & Hsign).
  pose proof (mul_1000_sized s 1002 _ ltac:(lia) ltac:(lia) Hs) as Hm.
  destruct Hm as [Hm | (m & e & Hm & _)]; rewrite Hm; cbn [PyFloat.to_int].
  - exists 0. split; [reflexivity | lia].
  - eexists. split; [reflexivity|].
    destruct Hsign as [-> | [s' Hs']].
    + cbn [cond_Zopp]. pose proof (Z.shiftl_nonneg (Zpos m) e). lia.
    + exfalso. rewrite Hs' in Hm. discriminate.
Qed.

Lemma elapsed_ms_of_a_clock_stepping_back_witness :
  reading_in_range Cases.later = true /\ reading_in_range Cases.earlier = true /\
  PyFloat.leb Cases.earlier Cases.later = true /\
  exists z, elapsed_ms Cases.later Cases.earlier = Normal z /\ z <= 0.
Proof.
  split; [reflexivity|]. split; [reflexivity|]. split; [reflexivity|].
  exact (elapsed_ms_of_a_clock_stepping_back Cases.later Cases.earlier
           eq_refl eq_refl eq_refl).
Defined.

(** ** One call, continued *)

Lemma skipn_length_app {A : Type} (l l' : list A) : skipn (List.length l) (l ++ l') = l'.
Proof. induction l as [| a l IH]; [reflexivity | exact IH]. Qed.

Section RunRaising.

Context {R : Type}.
Variables (input_text : Input) (model api_key : str) (env : @Env R) (w : World).

(** When [int] at line 63 raises, the [finally] clause ends there. *)
Lemma create_embedding_steps_raising (e' : PyExn) :
  elapsed_ms (perf_counter_at env (clock_calls w))
             (perf_counter_at env (S (clock_calls w))) = Raised e' ->
  create_embedding input_text model api_key env w =
  (Raised e',
   {| clock_calls := S (S (clock_calls w));
      log_lines :=
        log_lines w ++
        match embeddings_create env api_key (BASE_URL env) input_text model with
        | Raised (APIStatusError c m) =>
            [py "Error creating embedding (APIStatusError): "
               ++ py "OpenAI API error: " ++ m]
        | Raised (OtherException t) =>
            [py "Error creating embedding (Exception): "
               ++ py "Generic error: " ++ t]
        | _ => []
        end;
      db := db w |}).
Proof.
  intro Hz.
  unfold create_embedding, try_finally, try_except, try_body, finally_clause.
  cbn -[elapsed_ms py build_request_msg_log parse_status_code].
  destruct (embeddings_create env api_key (BASE_URL env) input_text model)
    as [r | [c m | t | t]];
    cbn -[elapsed_ms py build_request_msg_log parse_status_code];
    try destruct (parse_status_code t);
    cbn -[elapsed_ms py build_request_msg_log parse_status_code];
    rewrite Hz;
    cbn -[elapsed_ms py build_request_msg_log parse_status_code];
    rewrite ?app_nil_r; reflexivity.
Qed.

End RunRaising.

Section Further.

Context {R : Type}.
Variables (input_text : Input) (model api_key : str) (env : @Env R) (w : World).

Notation "'result'" := (fst (create_embedding input_text model api_key env w))
  (only parsing).
Notation "'written'" := (written_by input_text model api_key env w)
  (only parsing).
Notation "'logged'" := (logged_by input_text model api_key env w)
  (only parsing).
Notation "'provider'" :=
  (embeddings_create env api_key (BASE_URL env) input_text model) (only parsing).

(** X7. With a clock in range, every entry a call writes names the model of
    the call; the entry of the error log has the type ["openai-embedding"]
    and the preview of the input of the call; the entry of the request log
    has the time [datetime.now()] gave and the success flag of the call; and
    all the entries of one call carry the same status code. *)
Theorem entries_describe_the_call :
  clock_in_range env ->
  (forall wr, In wr written ->
     match wr with
     | ErrorLogWrite err =>
         ErrorLog.model_name err = model /\
         ErrorLog.error_type err = py "openai-embedding" /\
         ErrorLog.request_msg err = build_request_msg_log input_text
     | RequestLogWrite req =>
         RequestLog.model_name req = model /\
         RequestLog.request_time req = datetime_now_value env /\
         RequestLog.is_success req = succeeded result
     end) /\
  (forall wr wr', In wr written -> In wr' written -> status_of wr = status_of wr').
Proof.
  intro Hclock. unfold written_by. run_call Hclock z.
  destruct provider as [r | [c m | t | t]];
    try destruct (parse_status_code t); cbn [fst snd db];
    rewrite skipn_length_app; split;
    try (intros wr Hin; cbn [In] in Hin;
         repeat (destruct Hin as [<- | Hin]; [repeat split|]); contradiction);
    intros wr wr' Hin Hin'; cbn [In] in Hin, Hin';
    repeat (destruct Hin as [<- | Hin]; [|try contradiction]);
    repeat (destruct Hin' as [<- | Hin']; [|try contradiction]);
    reflexivity.
Qed.

(** X8. With a clock in range, a call gives [logger.error] one line exactly
    when an [except] clause runs, none when the provider's call succeeds or
    raises outside [Exception]; the line names the clause and ends with the
    message that goes to the error log. *)
Theorem one_log_line_per_caught_exception :
  clock_in_range env ->
  match provider with
  | Normal _ | Raised (NonException _) => logged = []
  | Raised e =>
      exists err, In (ErrorLogWrite err) written /\
        logged = [py "Error creating embedding (" ++ clause_name e ++ py "): "
                    ++ ErrorLog.error_log err]
  end.
Proof.
  intro Hclock. unfold written_by, logged_by. run_call Hclock z.
  destruct provider as [r | [c m | t | t]]; cbn [fst snd db log_lines];
    rewrite ?skipn_length_app; try reflexivity.
  - eexists. split; [left; reflexivity|]. reflexivity.
  - eexists. split; [left; reflexivity|]. reflexivity.
Qed.

(** X9. With a clock in range, a generic exception of text [t] is logged
    with the message ["Generic error: " + t]; both entries carry the same
    status code, which is not negative when there is one; and there is none
    exactly when [re.search] finds in [t] a run of more than
    [int_max_str_digits] digits, on which [int] raises at line 57. *)
Theorem generic_error_message_and_status (text : str) :
  clock_in_range env ->
  provider = Raised (OtherException text) ->
  exists err req,
    written = [ErrorLogWrite err; RequestLogWrite req] /\
    ErrorLog.error_log err = py "Generic error: " ++ text /\
    RequestLog.status_code req = ErrorLog.error_code err /\
    (forall code, ErrorLog.error_code err = Some code -> 0 <= code) /\
    (ErrorLog.error_code err = None <->
     exists g, Re.search text = Some g /\
               (int_max_str_digits < List.length g)%nat).
Proof.
  intros Hclock Hp. unfold written_by. run_call Hclock z. rewrite Hp.
  cbn [fst snd db]. rewrite skipn_length_app.
  do 2 eexists. split; [reflexivity|].
  cbn [ErrorLog.error_log ErrorLog.error_code RequestLog.status_code].
  split; [reflexivity|]. split; [reflexivity|].
  destruct (parse_status_code text) as [code | e] eqn:Hparse; split.
  - intros code' H. injection H as <-.
    exact (parse_status_code_nonneg text code Hparse).
  - split; [discriminate|]. intros (g & Hs & Hlen). exfalso.
    unfold parse_status_code, int_of_digit_run in Hparse. rewrite Hs in Hparse.
    destruct (Nat.ltb_spec int_max_str_digits (List.length g)); [discriminate | lia].
  - discriminate.
  - split; [|reflexivity]. intros _.
    unfold parse_status_code, int_of_digit_run in Hparse.
    destruct (Re.search text) as [g |]; [|discriminate].
    exists g. split; [reflexivity|].
    destruct (Nat.ltb_spec int_max_str_digits (List.length g)); [assumption | discriminate].
Qed.

(** X10. A call does not look at what the sinks and the logger already hold:
    from two worlds in which the clock has been read equally often, it
    completes alike, writes the same entries and logs the same lines. It
    reads the clock twice. *)
Theorem call_ignores_earlier_logs (w' : World) :
  clock_calls w = clock_calls w' ->
  fst (create_embedding input_text model api_key env w')
    = fst (create_embedding input_text model api_key env w) /\
  written_by input_text model api_key env w' = written_by input_text model api_key env w /\
  logged_by input_text model api_key env w' = logged_by input_text model api_key env w /\
  clock_calls (snd (create_embedding input_text model api_key env w))
    = S (S (clock_calls w)).
Proof.
  intro Hc. unfold written_by, logged_by.
  destruct (elapsed_ms (perf_counter_at env (clock_calls w))
                       (perf_counter_at env (S (clock_calls w)))) as [z | e'] eqn:Hz.
  - rewrite (create_embedding_steps input_text model api_key env w z Hz).
    rewrite Hc in Hz.
    rewrite (create_embedding_steps input_text model api_key env w' z Hz).
    destruct provider as [r | [c m | t | t]];
      try destruct (parse_status_code t);
      cbn [fst snd db log_lines clock_calls]; rewrite !skipn_length_app; auto.
  - rewrite (create_embedding_steps_raising input_text model api_key env w e' Hz).
    rewrite Hc in Hz.
    rewrite (create_embedding_steps_raising input_text model api_key env w' e' Hz).
    cbn [fst snd db log_lines clock_calls]. rewrite !skipn_length_app, !skipn_all.
    auto.
Qed.

(** X11. The guarantee of the [finally] clause stops at line 63: when [int]
    raises there, on an elapsed time that is infinite or not a number, the
    caller gets that exception, whatever the provider's call did, and
    neither sink is given an entry. *)
Theorem conversion_failure_skips_the_sinks (e' : PyExn) :
  elapsed_ms (perf_counter_at env (clock_calls w))
             (perf_counter_at env (S (clock_calls w))) = Raised e' ->
  result = Raised e' /\ written = [].
Proof.
  intro Hz. unfold written_by.
  rewrite (create_embedding_steps_raising input_text model api_key env w e' Hz).
  cbn [fst snd db]. split; [reflexivity | apply skipn_all].
Qed.

End Further.

(** ** The further properties on example calls *)

Lemma entries_describe_the_call_witness :
  clock_in_range (Example.env (Raised Example.rate_limited)) /\
  (forall wr, In wr (Example.written Example.hello (Raised Example.rate_limited)) ->
     match wr with
     | ErrorLogWrite err =>
         ErrorLog.model_name err = Example.model /\
         ErrorLog.error_type err = py "openai-embedding" /\
         ErrorLog.request_msg err = build_request_msg_log Example.hello
     | RequestLogWrite req =>
         RequestLog.model_name req = Example.model /\
         RequestLog.request_time req = Example.now /\
         RequestLog.is_success req
           = succeeded (fst (Example.call Example.hello (Raised Example.rate_limited)))
     end) /\
  (forall wr wr',
     In wr (Example.written Example.hello (Raised Example.rate_limited)) ->
     In wr' (Example.written Example.hello (Raised Example.rate_limited)) ->
     status_of wr = status_of wr').
Proof.
  split; [apply example_clock_in_range|].
  exact (entries_describe_the_call Example.hello Example.model Example.key
           (Example.env (Raised Example.rate_limited)) Example.world
           (example_clock_in_range _)).
Defined.

Lemma one_log_line_per_caught_exception_witness :
  clock_in_range (Example.env (Raised Example.connection_error)) /\
  exists err,
    In (ErrorLogWrite err)
       (Example.written Example.hello (Raised Example.connection_error)) /\
    logged_by Example.hello Example.model Example.key
              (Example.env (Raised Example.connection_error)) Example.world
      = [py "Error creating embedding (" ++ py "Exception" ++ py "): "
           ++ ErrorLog.error_log err].
Proof.
  split; [apply example_clock_in_range|].
  exact (one_log_line_per_caught_exception Example.hello Example.model
           Example.key (Example.env (Raised Example.connection_error))
           Example.world (example_clock_in_range _)).
Defined.

Lemma generic_error_message_and_status_witness :
  clock_in_range (Example.env (Raised (OtherException Example.unavailable))) /\
  exists err req,
    Example.written Example.hello (Raised (OtherException Example.unavailable))
      = [ErrorLogWrite err; RequestLogWrite req] /\
    ErrorLog.error_log err = py "Generic error: " ++ Example.unavailable /\
    RequestLog.status_code req = ErrorLog.error_code err /\
    (forall code, ErrorLog.error_code err = Some code -> 0 <= code) /\
    (ErrorLog.error_code err = None <->
     exists g, Re.search Example.unavailable = Some g /\
               (int_max_str_digits < List.length g)%nat).
Proof.
  split; [apply example_clock_in_range|].
  exact (generic_error_message_and_status Example.hello Example.model
           Example.key (Example.env (Raised (OtherException Example.unavailable)))
           Example.world Example.unavailable (example_clock_in_range _) eq_refl).
Defined.

Lemma call_ignores_earlier_logs_witness :
  clock_calls Example.world = clock_calls Cases.used_world /\
  fst (create_embedding Example.hello Example.model Example.key
         (Example.env (Raised Example.rate_limited)) Cases.used_world)
    = fst (Example.call Example.hello (Raised Example.rate_limited)) /\
  written_by Example.hello Example.model Example.key
             (Example.env (Raised Example.rate_limited)) Cases.used_world
    = Example.written Example.hello (Raised Example.rate_limited) /\
  logged_by Example.hello Example.model Example.key
            (Example.env (Raised Example.rate_limited)) Cases.used_world
    = logged_by Example.hello Example.model Example.key
                (Example.env (Raised Example.rate_limited)) Example.world /\
  clock_calls (snd (Example.call Example.hello (Raised Example.rate_limited)))
    = 2%nat.
Proof.
  split; [reflexivity|].
  exact (call_ignores_earlier_logs Example.hello Example.model Example.key
           (Example.env (Raised Example.rate_limited)) Example.world
           Cases.used_world eq_refl).
Defined.

Lemma conversion_failure_skips_the_sinks_witness :
  elapsed_ms (Cases.clock 0) (Cases.clock 1)
    = Raised (OtherException (py "cannot convert float infinity to integer")) /\
  fst (create_embedding Example.hello Example.model Example.key
         (Cases.env (Normal [1; 2])) Example.world)
    = Raised (OtherException (py "cannot convert float infinity to integer")) /\
  written_by Example.hello Example.model Example.key
             (Cases.env (Normal [1; 2])) Example.world = [].
Proof.
  split; [reflexivity|].
  exact (conversion_failure_skips_the_sinks Example.hello Example.model
           Example.key (Cases.env (Normal [1; 2])) Example.world
           (OtherException (py "cannot convert float infinity to integer"))
           eq_refl).
Defined.
